(** * SteamReviewScraper: review normalisation and cursor pagination

    A shallow embedding of [SteamReviewScraper.py]: the schema layer
    [_normalize_review] and the paginator
    [fetch_all_steam_reviews_for_app], followed by the properties of the
    two that the design document states.

    Python objects are embedded as the JSON-shaped [value]s that
    [resp.json()] produces.  A Python [str] is a Rocq [string] whose
    characters are code points below 256; a Python [float] is an IEEE
    binary64 datum ([spec_float]); a Python [int] is a [Z] (the
    interpreter's optional limit on the number of digits in int/str
    conversions is taken as switched off).  Exceptions are values: a
    computation that may raise returns a [result].

    The paginator talks to the outside through a session, [time.sleep]
    and the clock.  These are the operations of an environment [Env]
    over a type of worlds; a run threads the world and keeps a log of
    the requests and delays it performs.  [while True] is unrolled with
    fuel: a run either returns, raises, or is out of fuel. *)

From Stdlib Require Import ZArith String Ascii List Bool Lia.
From Stdlib Require Import SpecFloat DecimalString.
Import ListNotations.

Local Open Scope Z_scope.
Local Open Scope string_scope.

(** ** Exceptions and the error monad *)

Inductive exn_class : Type :=
| ValueError
| TypeError
| AttributeError
| OverflowError
| SteamReviewsError
| OtherError (name : string).

(** [exn_msg] is [None] for the exceptions raised inside builtins, whose
    texts are not modelled, and [Some] for the two [raise] statements of
    the source. *)
Record exn : Type := Exn { exn_cls : exn_class; exn_msg : option string }.

Inductive result (A : Type) : Type :=
| Ok (a : A)
| Raise (e : exn).

Arguments Ok {A} a.
Arguments Raise {A} e.

Definition bind {A B : Type} (c : result A) (k : A -> result B) : result B :=
  match c with
  | Ok a => k a
  | Raise e => Raise e
  end.

Declare Scope py_scope.
Delimit Scope py_scope with py.
Notation "x <- c ;; k" := (bind c (fun x => k))
  (at level 100, c at next level, right associativity) : py_scope.

Definition builtin_error {A : Type} (c : exn_class) : result A :=
  Raise (Exn c None).

(** ** Python values *)

#[local] Set Warnings "-register-all".

Inductive value : Type :=
| PyNone
| PyBool (b : bool)
| PyInt (z : Z)
| PyFloat (f : spec_float)
| PyStr (s : string)
| PyList (l : list value)
| PyDict (d : list (string * value)).

(** A [dict] decoded from JSON has string keys; it is kept as an
    association list in insertion order, the first binding of a key being
    the one in force. *)
Definition dict : Type := list (string * value).

Fixpoint dict_lookup (d : dict) (k : string) : option value :=
  match d with
  | [] => None
  | (k', v) :: d' => if String.eqb k' k then Some v else dict_lookup d' k
  end.

Fixpoint dict_remove (k : string) (d : dict) : dict :=
  match d with
  | [] => []
  | (k', v) :: d' =>
      if String.eqb k' k then dict_remove k d' else (k', v) :: dict_remove k d'
  end.

(** [d.get(k, default)] on a dict. *)
Definition dict_get (d : dict) (k : string) (default : value) : value :=
  match dict_lookup d k with
  | Some v => v
  | None => default
  end.

(** [r.get(k, default)] on an arbitrary object: only a dict has [get]. *)
Definition py_get (r : value) (k : string) (default : value) : result value :=
  match r with
  | PyDict d => Ok (dict_get d k default)
  | _ => builtin_error AttributeError
  end.

(** *** [bool(v)] *)

Definition py_bool (v : value) : bool :=
  match v with
  | PyNone => false
  | PyBool b => b
  | PyInt z => negb (z =? 0)%Z
  | PyFloat (S754_zero _) => false
  | PyFloat _ => true
  | PyStr s => negb (String.eqb s "")
  | PyList [] => false
  | PyList (_ :: _) => true
  | PyDict [] => false
  | PyDict (_ :: _) => true
  end.

(** [x or y] *)
Definition py_or (x y : value) : value := if py_bool x then x else y.

(** *** [int(v)] *)

Definition is_space (c : ascii) : bool :=
  let n := N_of_ascii c in
  (((9 <=? n) && (n <=? 13)) || (n =? 32) || (n =? 133) || (n =? 160))%N.

Definition digit_of (c : ascii) : option Z :=
  let n := N_of_ascii c in
  if ((48 <=? n) && (n <=? 57))%N then Some (Z.of_N (n - 48)) else None.

Fixpoint lstrip (s : list ascii) : list ascii :=
  match s with
  | c :: s' => if is_space c then lstrip s' else s
  | [] => []
  end.

Definition strip (s : list ascii) : list ascii :=
  rev (lstrip (rev (lstrip s))).

(** The rest of a decimal literal, read after a digit: digits, any two
    of which may be separated by one underscore. *)
Fixpoint parse_digits (acc : Z) (s : list ascii) : option Z :=
  match s with
  | [] => Some acc
  | c :: s' =>
      if Ascii.eqb c "_" then
        match s' with
        | d :: s'' =>
            match digit_of d with
            | Some n => parse_digits (10 * acc + n) s''
            | None => None
            end
        | [] => None
        end
      else
        match digit_of c with
        | Some n => parse_digits (10 * acc + n) s'
        | None => None
        end
  end.

Definition parse_unsigned (s : list ascii) : option Z :=
  match s with
  | d :: s' =>
      match digit_of d with
      | Some n => parse_digits n s'
      | None => None
      end
  | [] => None
  end.

(** The interpreter's limit on the digits of an integer read from a
    string or written to one ([sys.int_info.default_max_str_digits]):
    beyond it [int] of a string and [str] of an integer raise
    [ValueError]. *)
Definition max_str_digits : N := 4300.

(** The digits of a literal, leading zeros among them; underscores,
    the sign and the white space around do not count. *)
Definition count_digits (s : list ascii) : N :=
  N.of_nat (length (filter (fun c => match digit_of c with
                                     | Some _ => true
                                     | None => false
                                     end) s)).

(** [int(s)] for a string, base 10: surrounding white space, an optional
    sign, then the digits, [max_str_digits] of them at most. *)
Definition int_of_str (s : string) : option Z :=
  let lit := strip (list_ascii_of_string s) in
  if (max_str_digits <? count_digits lit)%N then None
  else
    match lit with
    | c :: r =>
        if Ascii.eqb c "-" then option_map Z.opp (parse_unsigned r)
        else if Ascii.eqb c "+" then parse_unsigned r
        else parse_unsigned (c :: r)
    | [] => None
    end.

(** [int(f)] for a float: truncation towards zero. *)
Definition int_of_float (f : spec_float) : result Z :=
  match f with
  | S754_zero _ => Ok 0
  | S754_infinity _ => builtin_error OverflowError
  | S754_nan => builtin_error ValueError
  | S754_finite s m e =>
      let a := Z.shiftl (Z.pos m) e in
      Ok (if s then - a else a)
  end.

Definition py_int (v : value) : result Z :=
  match v with
  | PyBool b => Ok (if b then 1 else 0)
  | PyInt z => Ok z
  | PyFloat f => int_of_float f
  | PyStr s =>
      match int_of_str s with
      | Some z => Ok z
      | None => builtin_error ValueError
      end
  | PyNone | PyList _ | PyDict _ => builtin_error TypeError
  end.

(** *** [str(v)] and [repr(v)] *)

Definition decimal (z : Z) : string := NilZero.string_of_int (Z.to_int z).

Definition hex_digit (n : N) : ascii :=
  ascii_of_N (if (n <? 10)%N then 48 + n else 87 + n).

Definition hex_escape (n : N) : string :=
  String "\" (String "x" (String (hex_digit (n / 16)) (String (hex_digit (n mod 16)) ""))).

Definition dquote : ascii := "034"%char.
Definition squote : ascii := "039"%char.

Definition contains (c : ascii) (s : string) : bool :=
  existsb (Ascii.eqb c) (list_ascii_of_string s).

(** The quote [repr] puts round a string: a double quote when the string
    has a single quote and no double quote, a single quote otherwise. *)
Definition repr_quote (s : string) : ascii :=
  if contains squote s && negb (contains dquote s) then dquote else squote.

Definition printable (n : N) : bool :=
  (((32 <=? n) && (n <? 127)) || ((161 <=? n) && negb (n =? 173)))%N.

Definition repr_char (q c : ascii) : string :=
  let n := N_of_ascii c in
  if Ascii.eqb c q || Ascii.eqb c "\" then String "\" (String c "")
  else if (n =? 9)%N then "\t"
  else if (n =? 10)%N then "\n"
  else if (n =? 13)%N then "\r"
  else if printable n then String c ""
  else hex_escape n.

Definition repr_str (s : string) : string :=
  let q := repr_quote s in
  String q (String.concat "" (map (repr_char q) (list_ascii_of_string s)) ++ String q "").

(** *** [repr] of a float: the shortest decimal that reads back as it

    As the interpreter does it: of the decimals that round to the float,
    the one with the fewest digits, the nearest to the float among
    those, written without exponent when the decimal point falls within
    sixteen digits, with one otherwise. *)

Section FloatRepr.
Local Open Scope Z_scope.

Definition cdiv (a b : Z) : Z := - ((- a) / b).

(** The finite floats are binary64 data: [m * 2 ^ e] with a 53-bit [m],
    or a shorter [m] at the least exponent [-1074].  In units of
    [2 ^ (e - 2)] the float is [4 * m], and the decimals that read back
    as it lie between [lo] and [hi], the half-way points to its
    neighbours; these count as reading back when [m] is even. *)
Definition below (m : positive) (e : Z) : Z :=
  if (Z.pos m =? 2 ^ 52) && (-1074 <? e) then 4 * Z.pos m - 1 else 4 * Z.pos m - 2.

Definition above (m : positive) : Z := 4 * Z.pos m + 2.

(** The multiple [d * 10 ^ q] nearest the float among those that read
    back as it, if there is one. *)
Definition shortest_at (m : positive) (e q : Z) : option Z :=
  let E := e - 2 in
  let sa := 2 ^ Z.max E 0 * 10 ^ Z.max (- q) 0 in
  let sd := 10 ^ Z.max q 0 * 2 ^ Z.max (- E) 0 in
  let closed := Z.even (Z.pos m) in
  let lo := below m e * sa in
  let hi := above m * sa in
  let x := 4 * Z.pos m * sa in
  let dmin := if closed then cdiv lo sd else lo / sd + 1 in
  let dmax := if closed then hi / sd else cdiv hi sd - 1 in
  if dmin <=? dmax then
    let d0 := x / sd in
    let near :=
      match 2 * (x - d0 * sd) ?= sd with
      | Lt => d0
      | Gt => d0 + 1
      | Eq => if Z.even d0 then d0 else d0 + 1
      end in
    Some (Z.max dmin (Z.min dmax near))
  else None.

Fixpoint shortest_from (fuel : nat) (m : positive) (e q : Z) : Z * Z :=
  match fuel with
  | O => (Z.pos m, e)
  | S fuel' =>
      match shortest_at m e q with
      | Some d => (d, q)
      | None => shortest_from fuel' m e (q - 1)
      end
  end.

(** The digits [d] and the exponent [q] of the shortest decimal
    [d * 10 ^ q]; the search starts above the magnitude of the float. *)
Definition shortest (m : positive) (e : Z) : Z * Z :=
  let bits := Z.log2 (Z.pos m) + 1 + e in
  shortest_from 40 m e (bits * 30103 / 100000 + 2).

Definition zeros (n : Z) : string :=
  string_of_list_ascii (repeat "0"%char (Z.to_nat n)).

Definition format_short (d q : Z) : string :=
  let ds := decimal d in
  let n := Z.of_nat (String.length ds) in
  let decpt := q + n in
  if (decpt <=? -4) || (16 <? decpt) then
    let x := decpt - 1 in
    substring 0 1 ds
    ++ (if 1 <? n then "." ++ substring 1 (Z.to_nat (n - 1)) ds else "")
    ++ "e" ++ (if x <? 0 then "-" else "+")
    ++ (if Z.abs x <? 10 then "0" else "") ++ decimal (Z.abs x)
  else if decpt <=? 0 then "0." ++ zeros (- decpt) ++ ds
  else if decpt <? n then
    substring 0 (Z.to_nat decpt) ds ++ "." ++ substring (Z.to_nat decpt) (Z.to_nat (n - decpt)) ds
  else ds ++ zeros (decpt - n) ++ ".0".

Definition float_repr (f : spec_float) : string :=
  match f with
  | S754_zero s => if s then "-0.0" else "0.0"
  | S754_infinity s => if s then "-inf" else "inf"
  | S754_nan => "nan"
  | S754_finite s m e =>
      let (d, q) := shortest m e in
      (if s then "-" else "") ++ format_short d q
  end.
End FloatRepr.

(** The text of [repr(v)], and that of [str(v)], when the call gives
    one. *)
Fixpoint repr_text (v : value) : string :=
  match v with
  | PyNone => "None"
  | PyBool true => "True"
  | PyBool false => "False"
  | PyInt z => decimal z
  | PyFloat f => float_repr f
  | PyStr s => repr_str s
  | PyList l => "[" ++ String.concat ", " (map repr_text l) ++ "]"
  | PyDict d =>
      "{" ++ String.concat ", "
               (map (fun '(k, x) => repr_str k ++ ": " ++ repr_text x) d) ++ "}"
  end.

Definition str_text (v : value) : string :=
  match v with
  | PyStr s => s
  | _ => repr_text v
  end.

(** The number of decimal digits of an integer. *)
Definition digits_of (z : Z) : N :=
  N.of_nat (String.length (decimal (Z.abs z))).

(** No integer in [v], at any depth, has more than [max_str_digits]
    digits. *)
Fixpoint within_digits (v : value) : bool :=
  match v with
  | PyInt z => (digits_of z <=? max_str_digits)%N
  | PyList l => forallb within_digits l
  | PyDict d => forallb (fun '(_, x) => within_digits x) d
  | PyNone | PyBool _ | PyFloat _ | PyStr _ => true
  end.

(** [repr(v)] and [str(v)]: an integer of more than [max_str_digits]
    digits, in [v] itself or inside a list or dict that is written out,
    makes the call raise [ValueError].  The depth of the interpreter's
    stack, which bounds the nesting of a value that can be written out,
    is taken as sufficient. *)
Definition py_repr (v : value) : result string :=
  if within_digits v then Ok (repr_text v) else builtin_error ValueError.

Definition py_str (v : value) : result string :=
  match v with
  | PyStr s => Ok s
  | _ => py_repr v
  end.

(** ** The normaliser *)

(** The dataclass.  Its annotations are not enforced when the program
    runs: [language] and [review] receive whatever object the raw record
    holds, so the two fields are [value]s here. *)
Record NormalizedReview : Type := {
  recommendationid : string;
  steamid : string;
  language : value;
  review : value;
  voted_up : bool;
  timestamp_created : Z;
  timestamp_updated : Z;
  author_num_games_owned : Z;
  author_num_reviews : Z;
  author_playtime_forever : Z;
  author_playtime_last_two_weeks : Z;
  author_playtime_at_review : Z;
  votes_up : Z;
  votes_funny : Z;
  weighted_vote_score : string;
  comment_count : Z;
  steam_purchase : bool;
  received_for_free : bool;
  written_during_early_access : bool
}.

Section Normalizer.
Local Open Scope py_scope.

(** [str(o.get(k, ""))], [int(o.get(k, 0))], [bool(o.get(k, False))] and
    the bare [o.get(k, "")]. *)
Definition str_field (o : value) (k : string) : result string :=
  v <- py_get o k (PyStr "") ;; py_str v.

Definition int_field (o : value) (k : string) : result Z :=
  v <- py_get o k (PyInt 0) ;; py_int v.

Definition bool_field (o : value) (k : string) : result bool :=
  v <- py_get o k (PyBool false) ;; Ok (py_bool v).

Definition raw_field (o : value) (k : string) : result value :=
  py_get o k (PyStr "").

(** [a = r.get("author", {}) or {}] *)
Definition author_of (r : value) : result value :=
  a <- py_get r "author" (PyDict []) ;; Ok (py_or a (PyDict [])).

Definition _normalize_review (r : value) : result NormalizedReview :=
  a <- author_of r ;;
  f1 <- str_field r "recommendationid" ;;
  f2 <- str_field a "steamid" ;;
  f3 <- raw_field r "language" ;;
  f4 <- raw_field r "review" ;;
  f5 <- bool_field r "voted_up" ;;
  f6 <- int_field r "timestamp_created" ;;
  f7 <- int_field r "timestamp_updated" ;;
  f8 <- int_field a "num_games_owned" ;;
  f9 <- int_field a "num_reviews" ;;
  f10 <- int_field a "playtime_forever" ;;
  f11 <- int_field a "playtime_last_two_weeks" ;;
  f12 <- int_field a "playtime_at_review" ;;
  f13 <- int_field r "votes_up" ;;
  f14 <- int_field r "votes_funny" ;;
  f15 <- str_field r "weighted_vote_score" ;;
  f16 <- int_field r "comment_count" ;;
  f17 <- bool_field r "steam_purchase" ;;
  f18 <- bool_field r "received_for_free" ;;
  f19 <- bool_field r "written_during_early_access" ;;
  Ok {| recommendationid := f1;
        steamid := f2;
        language := f3;
        review := f4;
        voted_up := f5;
        timestamp_created := f6;
        timestamp_updated := f7;
        author_num_games_owned := f8;
        author_num_reviews := f9;
        author_playtime_forever := f10;
        author_playtime_last_two_weeks := f11;
        author_playtime_at_review := f12;
        votes_up := f13;
        votes_funny := f14;
        weighted_vote_score := f15;
        comment_count := f16;
        steam_purchase := f17;
        received_for_free := f18;
        written_during_early_access := f19 |}.
End Normalizer.

(** ** Equality of scalars, sets of cursors, iteration, slices *)

(** The numbers among the values: a dyadic rational [m * 2 ^ e], an
    infinity, or not-a-number. *)
Inductive num : Type :=
| Dyadic (m e : Z)
| Inf (negative : bool)
| NaN.

Definition num_of (v : value) : option num :=
  match v with
  | PyBool b => Some (Dyadic (if b then 1 else 0) 0)
  | PyInt z => Some (Dyadic z 0)
  | PyFloat (S754_zero _) => Some (Dyadic 0 0)
  | PyFloat (S754_finite s m e) => Some (Dyadic (if s then Z.neg m else Z.pos m) e)
  | PyFloat (S754_infinity s) => Some (Inf s)
  | PyFloat S754_nan => Some NaN
  | _ => None
  end.

Definition num_eqb (a b : num) : bool :=
  match a, b with
  | Dyadic m1 e1, Dyadic m2 e2 =>
      let e := Z.min e1 e2 in
      (m1 * 2 ^ (e1 - e) =? m2 * 2 ^ (e2 - e))%Z
  | Inf s1, Inf s2 => Bool.eqb s1 s2
  | NaN, NaN => true
  | _, _ => false
  end.

(** [x == y] where one side is a scalar, as the program uses it: against
    the int [1], and inside the set of seen cursors.  Numbers compare by
    value across [bool], [int] and [float]; the one not-a-number object
    that the JSON decoder hands out is found in a set by identity. *)
Definition scalar_eq (x y : value) : bool :=
  match x, y with
  | PyNone, PyNone => true
  | PyStr s, PyStr t => String.eqb s t
  | _, _ =>
      match num_of x, num_of y with
      | Some a, Some b => num_eqb a b
      | _, _ => false
      end
  end.

Definition hashable (v : value) : bool :=
  match v with
  | PyList _ | PyDict _ => false
  | _ => true
  end.

(** [x in s] for a set [s], kept as the list of its elements. *)
Definition set_mem (x : value) (s : list value) : result bool :=
  if hashable x then Ok (existsb (scalar_eq x) s)
  else builtin_error TypeError.

(** The elements that [for r in v] and [list.extend(v)] go through. *)
Definition py_iter (v : value) : result (list value) :=
  match v with
  | PyList l => Ok l
  | PyDict d => Ok (map (fun kv => PyStr (fst kv)) d)
  | PyStr s => Ok (map (fun c => PyStr (String c "")) (list_ascii_of_string s))
  | _ => builtin_error TypeError
  end.

(** [l[:n]] *)
Definition slice_to {A : Type} (n : Z) (l : list A) : list A :=
  if (0 <=? n)%Z then firstn (Z.to_nat n) l
  else firstn (length l - Z.to_nat (- n)) l.

Fixpoint map_result {A B : Type} (f : A -> result B) (l : list A) : result (list B) :=
  match l with
  | [] => Ok []
  | x :: l' =>
      bind (f x) (fun y => bind (map_result f l') (fun ys => Ok (y :: ys)))
  end.

(** ** The paginator *)

(** The keyword arguments of [fetch_all_steam_reviews_for_app]; the
    [session] is the world the run starts in. *)
Module Args.
Record t : Type := {
  appid : Z;
  language : string;
  review_type : string;
  purchase_type : string;
  filter_mode : string;
  day_range : Z;
  num_per_page : Z;
  filter_offtopic_activity : Z;
  include_raw : bool;
  normalize : bool;
  max_reviews : option Z;
  sleep_seconds : spec_float;
  timeout_seconds : spec_float
}.

(** The defaults of the signature: a quarter of a second is
    [1 * 2 ^ -2], thirty seconds [15 * 2 ^ 1]. *)
Definition default (app : Z) : t := {|
  appid := app;
  language := "all";
  review_type := "all";
  purchase_type := "all";
  filter_mode := "recent";
  day_range := 9223372036854775807;
  num_per_page := 100;
  filter_offtopic_activity := 1;
  include_raw := false;
  normalize := true;
  max_reviews := None;
  sleep_seconds := S754_finite false 1 (-2);
  timeout_seconds := S754_finite false 15 1
|}.

(** The arguments [a] with one keyword argument given anew. *)
Definition with_num_per_page (n : Z) (a : t) : t := {|
  appid := appid a;
  language := language a;
  review_type := review_type a;
  purchase_type := purchase_type a;
  filter_mode := filter_mode a;
  day_range := day_range a;
  num_per_page := n;
  filter_offtopic_activity := filter_offtopic_activity a;
  include_raw := include_raw a;
  normalize := normalize a;
  max_reviews := max_reviews a;
  sleep_seconds := sleep_seconds a;
  timeout_seconds := timeout_seconds a
|}.

Definition with_max_reviews (cap : Z) (a : t) : t := {|
  appid := appid a;
  language := language a;
  review_type := review_type a;
  purchase_type := purchase_type a;
  filter_mode := filter_mode a;
  day_range := day_range a;
  num_per_page := num_per_page a;
  filter_offtopic_activity := filter_offtopic_activity a;
  include_raw := include_raw a;
  normalize := normalize a;
  max_reviews := Some cap;
  sleep_seconds := sleep_seconds a;
  timeout_seconds := timeout_seconds a
|}.

Definition with_include_raw (b : bool) (a : t) : t := {|
  appid := appid a;
  language := language a;
  review_type := review_type a;
  purchase_type := purchase_type a;
  filter_mode := filter_mode a;
  day_range := day_range a;
  num_per_page := num_per_page a;
  filter_offtopic_activity := filter_offtopic_activity a;
  include_raw := b;
  normalize := normalize a;
  max_reviews := max_reviews a;
  sleep_seconds := sleep_seconds a;
  timeout_seconds := timeout_seconds a
|}.
End Args.

Definition STEAM_REVIEWS_URL (app : Z) : string :=
  "https://store.steampowered.com/appreviews/" ++ decimal app.

Record request : Type := {
  url : string;
  params : dict;
  timeout : spec_float
}.

Record response : Type := {
  status_code : Z;
  text : string;
  json : result value
}.

(** What the run can observe of the outside: the session's [get], which
    answers or raises, [time.sleep], and the clock. *)
Class Env (World : Type) : Type := {
  sess_get : World -> request -> World * result response;
  time_sleep : World -> spec_float -> World * result unit;
  utc_now_iso : World -> string
}.

Inductive event : Type :=
| EvGet (rq : request)
| EvSleep (seconds : spec_float).

(** An entry of [normalized_reviews]: the dict of a normalised review,
    or the raw object when normalisation is off. *)
Inductive item : Type :=
| Normalized (n : NormalizedReview)
| AsIs (v : value).

(** The variables of the loop. *)
Module Loop.
Record locals : Type := {
  cursor : value;
  seen_cursors : list value;
  normalized_reviews : list item;
  raw_reviews : list value
}.

Definition init : locals := {|
  cursor := PyStr "*";
  seen_cursors := [];
  normalized_reviews := [];
  raw_reviews := []
|}.
End Loop.

Record RequestParams : Type := {
  rp_language : string;
  rp_review_type : string;
  rp_purchase_type : string;
  rp_filter : string;
  rp_day_range : Z;
  rp_num_per_page : Z;
  rp_filter_offtopic_activity : Z
}.

(** The returned dict; [raw_reviews] is absent unless [include_raw]. *)
Record FetchResult : Type := {
  appid : Z;
  fetched_at_utc : string;
  request_params : RequestParams;
  count : Z;
  last_cursor : value;
  reviews : list item;
  raw_reviews : option (list value)
}.

Inductive flow : Type :=
| Break (st : Loop.locals)
| Continue (st : Loop.locals).

Inductive outcome (A : Type) : Type :=
| Returned (a : A)
| Raised (e : exn)
| OutOfFuel.

Arguments Returned {A} a.
Arguments Raised {A} e.
Arguments OutOfFuel {A}.

Section Paginator.
Context {World : Type} {E : Env World}.

(** The world together with the log of the calls made to it so far,
    oldest first. *)
Definition machine : Type := (World * list event)%type.

Definition io (A : Type) : Type := machine -> machine * result A.

Definition io_ret {A : Type} (a : A) : io A := fun m => (m, Ok a).

Definition io_bind {A B : Type} (c : io A) (k : A -> io B) : io B :=
  fun m =>
    match c m with
    | (m', Ok a) => k a m'
    | (m', Raise e) => (m', Raise e)
    end.

Definition lift {A : Type} (r : result A) : io A := fun m => (m, r).

Definition io_raise {A : Type} (c : exn_class) (msg : string) : io A :=
  fun m => (m, Raise (Exn c (Some msg))).

Definition http_get (rq : request) : io response :=
  fun m =>
    let (w', r) := sess_get (fst m) rq in
    ((w', (snd m ++ [EvGet rq])%list), r).

Definition sleep (seconds : spec_float) : io unit :=
  fun m =>
    let (w', r) := time_sleep (fst m) seconds in
    ((w', (snd m ++ [EvSleep seconds])%list), r).

Declare Scope io_scope.
Notation "x <- c ;; k" := (io_bind c (fun x => k))
  (at level 100, c at next level, right associativity) : io_scope.
Notation "c ;;; k" := (io_bind c (fun _ => k))
  (at level 100, right associativity) : io_scope.
Local Open Scope io_scope.

Definition request_for (a : Args.t) (cursor : value) : request := {|
  url := STEAM_REVIEWS_URL (Args.appid a);
  params :=
    [ ("json", PyInt 1);
      ("cursor", cursor);
      ("language", PyStr (Args.language a));
      ("review_type", PyStr (Args.review_type a));
      ("purchase_type", PyStr (Args.purchase_type a));
      ("filter", PyStr (Args.filter_mode a));
      ("day_range", PyInt (Args.day_range a));
      ("num_per_page", PyInt (Args.num_per_page a));
      ("filter_offtopic_activity", PyInt (Args.filter_offtopic_activity a)) ];
  timeout := Args.timeout_seconds a
|}.

(** [raw_reviews.extend(page_reviews)] when [include_raw]. *)
Definition extend_raw (a : Args.t) (raw : list value) (page_reviews : value)
  : result (list value) :=
  if Args.include_raw a then
    bind (py_iter page_reviews) (fun l => Ok (raw ++ l)%list)
  else Ok raw.

(** The [if normalize: ... else: ...] that grows [normalized_reviews]. *)
Definition extend_normalized (a : Args.t) (acc : list item) (page_reviews : value)
  : result (list item) :=
  bind (py_iter page_reviews) (fun l =>
    if Args.normalize a then
      bind (map_result _normalize_review l) (fun ns =>
        Ok (acc ++ map Normalized ns)%list)
    else Ok (acc ++ map AsIs l)%list).

(** The [if max_reviews is not None and len(...) >= max_reviews] test. *)
Definition cap_reached (a : Args.t) (acc : list item) : option Z :=
  match Args.max_reviews a with
  | Some cap => if (cap <=? Z.of_nat (length acc))%Z then Some cap else None
  | None => None
  end.

(** One pass through the body of [while True].  The integers that a
    pass writes into text, the app id in the address and the status
    code and the payload in the messages of the two errors, are written
    with [decimal] and [str_text]: they are taken to have
    [max_str_digits] digits at most, as has every integer that the
    argument parser or the decoder of a JSON body yields. *)
Definition iteration (a : Args.t) (st : Loop.locals) : io flow :=
  repeated <- lift (set_mem (Loop.cursor st) (Loop.seen_cursors st)) ;;
  if repeated : bool then io_ret (Break st)
  else
    let seen := Loop.cursor st :: Loop.seen_cursors st in
    resp <- http_get (request_for a (Loop.cursor st)) ;;
    if negb (status_code resp =? 200)%Z then
      io_raise SteamReviewsError
        ("HTTP " ++ decimal (status_code resp) ++ ": " ++ substring 0 300 (text resp))
    else
      data <- lift (json resp) ;;
      success <- lift (py_get data "success" PyNone) ;;
      if negb (scalar_eq success (PyInt 1)) then
        io_raise SteamReviewsError
          ("Steam returned success=" ++ str_text success ++ ": " ++ str_text data)
      else
        got <- lift (py_get data "reviews" PyNone) ;;
        let page_reviews := py_or got (PyList []) in
        next_cursor <- lift (py_get data "cursor" (Loop.cursor st)) ;;
        if negb (py_bool page_reviews) then
          io_ret (Break {| Loop.cursor := next_cursor;
                           Loop.seen_cursors := seen;
                           Loop.normalized_reviews := Loop.normalized_reviews st;
                           Loop.raw_reviews := Loop.raw_reviews st |})
        else
          raw <- lift (extend_raw a (Loop.raw_reviews st) page_reviews) ;;
          acc <- lift (extend_normalized a (Loop.normalized_reviews st) page_reviews) ;;
          match cap_reached a acc with
          | Some cap =>
              io_ret (Break {| Loop.cursor := next_cursor;
                               Loop.seen_cursors := seen;
                               Loop.normalized_reviews := slice_to cap acc;
                               Loop.raw_reviews :=
                                 if Args.include_raw a then slice_to cap raw
                                 else raw |})
          | None =>
              sleep (Args.sleep_seconds a) ;;;
              io_ret (Continue {| Loop.cursor := next_cursor;
                                  Loop.seen_cursors := seen;
                                  Loop.normalized_reviews := acc;
                                  Loop.raw_reviews := raw |})
          end.

(** [while True], unrolled at most [fuel] times. *)
Fixpoint while_true (fuel : nat) (a : Args.t) (st : Loop.locals) (m : machine)
  : machine * outcome Loop.locals :=
  match fuel with
  | O => (m, OutOfFuel)
  | S fuel' =>
      match iteration a st m with
      | (m', Ok (Break st')) => (m', Returned st')
      | (m', Ok (Continue st')) => while_true fuel' a st' m'
      | (m', Raise e) => (m', Raised e)
      end
  end.

(** The dict built after the loop. *)
Definition envelope (a : Args.t) (st : Loop.locals) (now : string) : FetchResult := {|
  appid := Args.appid a;
  fetched_at_utc := now;
  request_params := {|
    rp_language := Args.language a;
    rp_review_type := Args.review_type a;
    rp_purchase_type := Args.purchase_type a;
    rp_filter := Args.filter_mode a;
    rp_day_range := Args.day_range a;
    rp_num_per_page := Args.num_per_page a;
    rp_filter_offtopic_activity := Args.filter_offtopic_activity a |};
  count := Z.of_nat (length (Loop.normalized_reviews st));
  last_cursor := Loop.cursor st;
  reviews := Loop.normalized_reviews st;
  raw_reviews :=
    if Args.include_raw a then Some (Loop.raw_reviews st) else None
|}.

Definition valid_page_size (a : Args.t) : bool :=
  ((1 <=? Args.num_per_page a) && (Args.num_per_page a <=? 100))%Z.

(** What follows the bounds check: the loop from given locals, then
    the envelope. *)
Definition run_from (fuel : nat) (a : Args.t) (st : Loop.locals) (m : machine)
  : machine * outcome FetchResult :=
  match while_true fuel a st m with
  | (m', Returned st') => (m', Returned (envelope a st' (utc_now_iso (fst m'))))
  | (m', Raised e) => (m', Raised e)
  | (m', OutOfFuel) => (m', OutOfFuel)
  end.

Definition fetch_all_steam_reviews_for_app (fuel : nat) (a : Args.t) (w : World)
  : machine * outcome FetchResult :=
  if negb (valid_page_size a) then
    ((w, []), Raised (Exn ValueError (Some "num_per_page must be between 1 and 100")))
  else run_from fuel a Loop.init (w, []).
End Paginator.

(** ** A scripted session

    The mock transport of the tests: the answers of [get] are fixed in
    advance and handed out in order, [time.sleep] returns at once, and
    the clock stands still. *)

Abbreviation script := (list (result response)).

#[export] Instance scripted : Env script := {|
  sess_get w _ :=
    match w with
    | r :: w' => (w', r)
    | [] => ([], builtin_error (OtherError "StopIteration"))
    end;
  time_sleep w _ := (w, Ok tt);
  utc_now_iso _ := "1970-01-01T00:00:00+00:00"
|}.

(** A successful page: status 200 and a payload with [success] 1, the
    given reviews and the given next cursor. *)
Definition page (revs : list value) (next : string) : response := {|
  status_code := 200;
  text := "";
  json := Ok (PyDict [("success", PyInt 1);
                      ("cursor", PyStr next);
                      ("reviews", PyList revs)])
|}.

(** ** The command line *)

(** The namespace that [parse_args] hands to the main block: one field
    per option of [build_arg_parser], of the type the option converts
    to.  [out] is [None] when the option is absent. *)
Module Namespace.
Record t : Type := {
  appid : Z;
  language : string;
  review_type : string;
  purchase_type : string;
  filter_mode : string;
  day_range : Z;
  num_per_page : Z;
  filter_offtopic_activity : Z;
  max_reviews : Z;
  sleep_seconds : spec_float;
  timeout_seconds : spec_float;
  include_raw : bool;
  no_normalize : bool;
  out : option string
}.

(** The defaults that [build_arg_parser] declares: the namespace of an
    empty command line. *)
Definition defaults : t := {|
  appid := 4134990;
  language := "all";
  review_type := "all";
  purchase_type := "all";
  filter_mode := "recent";
  day_range := 9223372036854775807;
  num_per_page := 100;
  filter_offtopic_activity := 1;
  max_reviews := 1000;
  sleep_seconds := S754_finite false 1 (-2);
  timeout_seconds := S754_finite false 15 1;
  include_raw := false;
  no_normalize := false;
  out := None
|}.
End Namespace.

(** The keyword arguments that the main block passes on. *)
Definition fetch_args (ns : Namespace.t) : Args.t := {|
  Args.appid := Namespace.appid ns;
  Args.language := Namespace.language ns;
  Args.review_type := Namespace.review_type ns;
  Args.purchase_type := Namespace.purchase_type ns;
  Args.filter_mode := Namespace.filter_mode ns;
  Args.day_range := Namespace.day_range ns;
  Args.num_per_page := Namespace.num_per_page ns;
  Args.filter_offtopic_activity := Namespace.filter_offtopic_activity ns;
  Args.include_raw := Namespace.include_raw ns;
  Args.normalize := negb (Namespace.no_normalize ns);
  Args.max_reviews := Some (Namespace.max_reviews ns);
  Args.sleep_seconds := Namespace.sleep_seconds ns;
  Args.timeout_seconds := Namespace.timeout_seconds ns
|}.

(** [args.out or f"steam_reviews_{args.appid}.json"] *)
Definition out_file (ns : Namespace.t) : string :=
  let named := "steam_reviews_" ++ decimal (Namespace.appid ns) ++ ".json" in
  match Namespace.out ns with
  | Some path => if String.eqb path "" then named else path
  | None => named
  end.

(** What the main block does besides fetching: [open] and [json.dump],
    which write the dataset at a path or raise, and [print]. *)
Class Host (World : Type) : Type := {
  dump_json : World -> string -> FetchResult -> World * result unit;
  print : World -> string -> World
}.

Inductive output : Type :=
| Saved (path : string) (dataset : FetchResult)
| Printed (line : string).

Section Main.
Context {World : Type} {E : Env World} {H : Host World}.

Definition save_reviews_json (dataset : FetchResult) (out_path : string) (w : World)
  : World * result unit :=
  dump_json w out_path dataset.

(** The block under [if __name__ == "__main__"], from the parsed
    arguments on; beside the machine it gives the files saved and the
    lines printed, in order. *)
Definition main (fuel : nat) (ns : Namespace.t) (w : World)
  : (machine * list output) * outcome unit :=
  let out := out_file ns in
  match fetch_all_steam_reviews_for_app fuel (fetch_args ns) w with
  | (m, Returned data) =>
      match save_reviews_json data out (fst m) with
      | (w1, Ok _) =>
          let line := "Saved " ++ decimal (count data) ++ " reviews to " ++ out in
          (((print w1 line, snd m), [Saved out data; Printed line]), Returned tt)
      | (w1, Raise e) => (((w1, snd m), []), Raised e)
      end
  | (m, Raised e) => ((m, []), Raised e)
  | (m, OutOfFuel) => ((m, []), OutOfFuel)
  end.
End Main.

(** The host of the scripted session: every write succeeds. *)
#[export] Instance scripted_host : Host script := {|
  dump_json w _ _ := (w, Ok tt);
  print w _ := w
|}.

(** ** Notions used in the statements *)

(** *** The coercion rules of the normaliser, field by field

    These are the rules as the design document words them, one
    predicate per kind of field; the normaliser is compared with them
    below. *)

Definition int_keys : list string :=
  ["timestamp_created"; "timestamp_updated"; "votes_up"; "votes_funny";
   "comment_count"].

Definition author_int_keys : list string :=
  ["num_games_owned"; "num_reviews"; "playtime_forever";
   "playtime_last_two_weeks"; "playtime_at_review"].

Definition str_keys : list string :=
  ["recommendationid"; "weighted_vote_score"].

Definition author_str_keys : list string := ["steamid"].

(** [int(v)] returns. *)
Definition int_coercible (v : value) : bool :=
  match py_int v with
  | Ok _ => true
  | Raise _ => false
  end.

(** [str(v)] returns. *)
Definition str_coercible (v : value) : bool :=
  match py_str v with
  | Ok _ => true
  | Raise _ => false
  end.

(** The dict [a] that the author-derived fields are read from: that of
    the ["author"] entry, empty when the entry is absent or falsy. *)
Definition author_shape (d a : dict) : Prop :=
  match dict_lookup d "author" with
  | None => a = []
  | Some v => if py_bool v then v = PyDict a else a = []
  end.

(** A string field: [str] of the source value when present, [""] when
    absent. *)
Definition str_rule (o : dict) (k : string) (out : string) : Prop :=
  match dict_lookup o k with
  | Some v => py_str v = Ok out
  | None => out = ""
  end.

(** An integer field: [int] of the source value when present, [0] when
    absent. *)
Definition int_rule (o : dict) (k : string) (out : Z) : Prop :=
  match dict_lookup o k with
  | Some v => py_int v = Ok out
  | None => out = 0%Z
  end.

(** A boolean field: the truthiness of the source value when present,
    [False] when absent. *)
Definition bool_rule (o : dict) (k : string) (out : bool) : Prop :=
  match dict_lookup o k with
  | Some v => out = py_bool v
  | None => out = false
  end.

(** A text field read without [str]: the source string when there is
    one, [""] when the key is absent; nothing is said of a source value
    that is not a string. *)
Definition text_rule (o : dict) (k : string) (out : value) : Prop :=
  match dict_lookup o k with
  | Some (PyStr s) => out = PyStr s
  | Some _ => True
  | None => out = PyStr ""
  end.

(** *** Runs of the paginator *)

Definition cursor_of (rq : request) : value :=
  dict_get (params rq) "cursor" PyNone.

(** The cursors of the requests in a log, oldest first. *)
Fixpoint requested_cursors (log : list event) : list value :=
  match log with
  | [] => []
  | EvGet rq :: log' => cursor_of rq :: requested_cursors log'
  | EvSleep _ :: log' => requested_cursors log'
  end.


Section Runs.
Context {World : Type} {E : Env World}.

(** [passes n a st m]: the locals and the machine after [n] passes
    through the loop body none of which left the loop. *)
Fixpoint passes (n : nat) (a : Args.t) (st : Loop.locals) (m : machine)
  : option (Loop.locals * machine) :=
  match n with
  | O => Some (st, m)
  | S n' =>
      match iteration a st m with
      | (m', Ok (Continue st')) => passes n' a st' m'
      | _ => None
      end
  end.

(** The call started in world [w] is at the top of the loop for the
    [n + 1]-th time, with locals [st] and machine [m]. *)
Definition at_top (a : Args.t) (w : World) (n : nat) (st : Loop.locals) (m : machine)
  : Prop :=
  valid_page_size a = true /\ passes n a Loop.init (w, []) = Some (st, m).

(** At the top of the loop with a cursor not yet seen, the request is
    answered by [resp]. *)
Definition fetches (a : Args.t) (st : Loop.locals) (m : machine)
  (w' : World) (resp : response) : Prop :=
  set_mem (Loop.cursor st) (Loop.seen_cursors st) = Ok false /\
  sess_get (fst m) (request_for a (Loop.cursor st)) = (w', Ok resp).

(** The machine once that request is logged. *)
Definition fetched (a : Args.t) (st : Loop.locals) (m : @machine World) (w' : World)
  : @machine World :=
  (w', (snd m ++ [EvGet (request_for a (Loop.cursor st))])%list).
End Runs.

(** The locals on leaving the loop at a page with nothing in it. *)
Definition ended (st : Loop.locals) (next : value) : Loop.locals := {|
  Loop.cursor := next;
  Loop.seen_cursors := Loop.cursor st :: Loop.seen_cursors st;
  Loop.normalized_reviews := Loop.normalized_reviews st;
  Loop.raw_reviews := Loop.raw_reviews st
|}.


(** The seen cursors are the cursors requested so far, latest first, all
    distinct and all hashable. *)
Definition cursor_inv (st : Loop.locals) (log : list event) : Prop :=
  requested_cursors log = rev (Loop.seen_cursors st) /\
  NoDup (Loop.seen_cursors st) /\
  forallb hashable (Loop.seen_cursors st) = true.

(** A successful payload: status 200, a decoded dict, [success == 1]. *)
Definition payload (resp : response) (data : dict) : Prop :=
  status_code resp = 200%Z /\
  json resp = Ok (PyDict data) /\
  scalar_eq (dict_get data "success" PyNone) (PyInt 1) = true.

(** *** Sequences of pages for the scripted session *)

Definition script_of (ps : list (list value * string)) : script :=
  map (fun p => Ok (page (fst p) (snd p))) ps.

Definition records (ps : list (list value * string)) : list value :=
  concat (map fst ps).

(** What [normalized_reviews] receives for raw records [l]. *)
Definition items_of (a : Args.t) (l : list value) : result (list item) :=
  if Args.normalize a then
    bind (map_result _normalize_review l) (fun ns => Ok (map Normalized ns))
  else Ok (map AsIs l).

(** The keys that [_normalize_review] reads in a raw record. *)
Definition top_keys : list string :=
  ["author"; "recommendationid"; "language"; "review"; "voted_up";
   "timestamp_created"; "timestamp_updated"; "votes_up"; "votes_funny";
   "weighted_vote_score"; "comment_count"; "steam_purchase";
   "received_for_free"; "written_during_early_access"].

(** A request as the call with arguments [a] makes them; a delay of the
    length [a] asks for. *)
Definition event_of (a : Args.t) (ev : event) : Prop :=
  match ev with
  | EvGet rq => rq = request_for a (cursor_of rq)
  | EvSleep seconds => seconds = Args.sleep_seconds a
  end.

Definition is_normalized (i : item) : Prop := exists n, i = Normalized n.

Definition is_as_is (i : item) : Prop := exists v, i = AsIs v.

(** *** Invariants of the locals *)

(** The output collection is what the [normalize] flag makes of the raw
    records appended so far, and with [include_raw] the raw collection
    is the list of those records; under a cap [cap >= 0] the output
    holds [cap] items at most. *)
Definition collected (a : Args.t) (st : Loop.locals) : Prop :=
  (exists l,
     items_of a l = Ok (Loop.normalized_reviews st) /\
     (Args.include_raw a = true -> Loop.raw_reviews st = l)) /\
  (forall cap, Args.max_reviews a = Some cap -> 0 <= cap ->
     Z.of_nat (length (Loop.normalized_reviews st)) <= cap).

(** The cursors seen are distinct cursors among the start cursor and
    those of [known], and so is the cursor in hand. *)
Definition bounded (known : list value) (st : Loop.locals) : Prop :=
  NoDup (Loop.seen_cursors st) /\
  incl (Loop.seen_cursors st) (PyStr "*" :: known) /\
  In (Loop.cursor st) (PyStr "*" :: known).

(** The request parameters a dataset records are those [rq] carried. *)
Definition recorded (rp : RequestParams) (rq : request) : Prop :=
  dict_lookup (params rq) "language" = Some (PyStr (rp_language rp)) /\
  dict_lookup (params rq) "review_type" = Some (PyStr (rp_review_type rp)) /\
  dict_lookup (params rq) "purchase_type" = Some (PyStr (rp_purchase_type rp)) /\
  dict_lookup (params rq) "filter" = Some (PyStr (rp_filter rp)) /\
  dict_lookup (params rq) "day_range" = Some (PyInt (rp_day_range rp)) /\
  dict_lookup (params rq) "num_per_page" = Some (PyInt (rp_num_per_page rp)) /\
  dict_lookup (params rq) "filter_offtopic_activity"
    = Some (PyInt (rp_filter_offtopic_activity rp)).

(** *** Worked inputs *)

(** A raw review as the store sends it, with a null author. *)
Definition sample_fields : dict :=
  [("recommendationid", PyStr "1001");
   ("author", PyNone);
   ("language", PyStr "english");
   ("review", PyStr "ok");
   ("timestamp_created", PyInt 1700000000);
   ("voted_up", PyBool true);
   ("votes_up", PyStr " 12 ");
   ("weighted_vote_score", PyInt 0)].

Definition sample_review : value := PyDict sample_fields.

(** What [_normalize_review] makes of it. *)
Definition sample_normalized : NormalizedReview := {|
  recommendationid := "1001";
  steamid := "";
  language := PyStr "english";
  review := PyStr "ok";
  voted_up := true;
  timestamp_created := 1700000000;
  timestamp_updated := 0;
  author_num_games_owned := 0;
  author_num_reviews := 0;
  author_playtime_forever := 0;
  author_playtime_last_two_weeks := 0;
  author_playtime_at_review := 0;
  votes_up := 12;
  votes_funny := 0;
  weighted_vote_score := "0";
  comment_count := 0;
  steam_purchase := false;
  received_for_free := false;
  written_during_early_access := false
|}.

Definition unavailable : response := {|
  status_code := 503;
  text := "Service Unavailable";
  json := builtin_error ValueError
|}.

Definition refused : response := {|
  status_code := 200;
  text := "";
  json := Ok (PyDict [("success", PyInt 2)])
|}.

(** A page without a ["reviews"] entry and without a ["cursor"] one. *)
Definition bare : response := {|
  status_code := 200;
  text := "";
  json := Ok (PyDict [("success", PyInt 1)])
|}.

(** A server that answers every request with the same page of one
    review and the same next cursor. *)
#[export] Instance repeating : Env unit := {|
  sess_get w _ := (w, Ok (page [sample_review] "AB=="));
  time_sleep w _ := (w, Ok tt);
  utc_now_iso _ := "1970-01-01T00:00:00+00:00"
|}.

(** * Properties *)

(** ** The normaliser *)

Lemma py_get_dict (d : dict) (k : string) (dflt : value) :
  py_get (PyDict d) k dflt = Ok (dict_get d k dflt).
Proof. reflexivity. Qed.

Lemma py_get_ok (r : value) (k : string) (dflt v : value) :
  py_get r k dflt = Ok v -> exists d, r = PyDict d /\ v = dict_get d k dflt.
Proof.
  destruct r; simpl; try discriminate.
  intros H; injection H as <-. eauto.
Qed.

Lemma str_field_dict (d : dict) (k : string) :
  str_field (PyDict d) k = py_str (dict_get d k (PyStr "")).
Proof. reflexivity. Qed.

Lemma int_field_dict (d : dict) (k : string) :
  int_field (PyDict d) k = py_int (dict_get d k (PyInt 0)).
Proof. reflexivity. Qed.

Lemma bool_field_dict (d : dict) (k : string) :
  bool_field (PyDict d) k = Ok (py_bool (dict_get d k (PyBool false))).
Proof. reflexivity. Qed.

Lemma raw_field_dict (d : dict) (k : string) :
  raw_field (PyDict d) k = Ok (dict_get d k (PyStr "")).
Proof. reflexivity. Qed.

(** The rules, read off [dict_get] with the default of each kind. *)
Lemma str_rule_get (d : dict) (k : string) (s : string) :
  py_str (dict_get d k (PyStr "")) = Ok s -> str_rule d k s.
Proof.
  unfold str_rule, dict_get. destruct (dict_lookup d k); simpl; [tauto|].
  congruence.
Qed.

Lemma int_rule_get (d : dict) (k : string) (z : Z) :
  py_int (dict_get d k (PyInt 0)) = Ok z -> int_rule d k z.
Proof.
  unfold int_rule, dict_get. destruct (dict_lookup d k); simpl; [tauto|].
  congruence.
Qed.

Lemma bool_rule_get (d : dict) (k : string) :
  bool_rule d k (py_bool (dict_get d k (PyBool false))).
Proof. unfold bool_rule, dict_get. destruct (dict_lookup d k); reflexivity. Qed.

Lemma text_rule_get (d : dict) (k : string) :
  text_rule d k (dict_get d k (PyStr "")).
Proof.
  unfold text_rule, dict_get. destruct (dict_lookup d k) as [[]|]; auto.
Qed.

(** Line 51 returns exactly on the records whose author is absent,
    falsy or a dict. *)
Lemma author_of_shape (d a : dict) :
  author_of (PyDict d) = Ok (PyDict a) <-> author_shape d a.
Proof.
  unfold author_of, author_shape, py_or, dict_get. simpl. unfold dict_get.
  destruct (dict_lookup d "author") as [v|]; simpl.
  - destruct (py_bool v); split; intros H; congruence.
  - split; intros H; congruence.
Qed.

Lemma author_of_dict (d : dict) :
  author_of (PyDict d) = Ok (py_or (dict_get d "author" (PyDict [])) (PyDict [])).
Proof. reflexivity. Qed.

Lemma int_coercible_ok (v : value) :
  int_coercible v = true -> exists z, py_int v = Ok z.
Proof. unfold int_coercible. destruct (py_int v); [eauto | discriminate]. Qed.

Lemma str_coercible_ok (v : value) :
  str_coercible v = true -> exists s, py_str v = Ok s.
Proof. unfold str_coercible. destruct (py_str v); [eauto | discriminate]. Qed.

Ltac coerce H k :=
  let z := fresh "z" in
  let Hz := fresh "Hz" in
  destruct (int_coercible_ok _ (H k ltac:(simpl; tauto))) as [z Hz];
  rewrite Hz; cbn [bind].

Ltac coerce_str H k :=
  let s := fresh "s" in
  let Hs := fresh "Hs" in
  destruct (str_coercible_ok _ (H k ltac:(simpl; tauto))) as [s Hs];
  rewrite Hs; cbn [bind].

(** Inversion of a successful call: the record is a dict, line 51 gave a
    dict, and each field is the result of its read. *)
Ltac unbind H :=
  match type of H with
  | bind ?c _ = Ok _ =>
      let x := fresh "x" in
      let Hx := fresh "Hx" in
      destruct c as [x|] eqn:Hx; [simpl in H | discriminate H]
  end.

Lemma normalize_inv (r : value) (n : NormalizedReview) :
  _normalize_review r = Ok n ->
  exists d a,
    r = PyDict d /\ author_of r = Ok (PyDict a) /\
    py_str (dict_get d "recommendationid" (PyStr "")) = Ok (recommendationid n) /\
    py_str (dict_get a "steamid" (PyStr "")) = Ok (steamid n) /\
    language n = dict_get d "language" (PyStr "") /\
    review n = dict_get d "review" (PyStr "") /\
    voted_up n = py_bool (dict_get d "voted_up" (PyBool false)) /\
    py_int (dict_get d "timestamp_created" (PyInt 0)) = Ok (timestamp_created n) /\
    py_int (dict_get d "timestamp_updated" (PyInt 0)) = Ok (timestamp_updated n) /\
    py_int (dict_get a "num_games_owned" (PyInt 0)) = Ok (author_num_games_owned n) /\
    py_int (dict_get a "num_reviews" (PyInt 0)) = Ok (author_num_reviews n) /\
    py_int (dict_get a "playtime_forever" (PyInt 0)) = Ok (author_playtime_forever n) /\
    py_int (dict_get a "playtime_last_two_weeks" (PyInt 0))
      = Ok (author_playtime_last_two_weeks n) /\
    py_int (dict_get a "playtime_at_review" (PyInt 0)) = Ok (author_playtime_at_review n) /\
    py_int (dict_get d "votes_up" (PyInt 0)) = Ok (votes_up n) /\
    py_int (dict_get d "votes_funny" (PyInt 0)) = Ok (votes_funny n) /\
    py_str (dict_get d "weighted_vote_score" (PyStr "")) = Ok (weighted_vote_score n) /\
    py_int (dict_get d "comment_count" (PyInt 0)) = Ok (comment_count n) /\
    steam_purchase n = py_bool (dict_get d "steam_purchase" (PyBool false)) /\
    received_for_free n = py_bool (dict_get d "received_for_free" (PyBool false)) /\
    written_during_early_access n
      = py_bool (dict_get d "written_during_early_access" (PyBool false)).
Proof.
  unfold _normalize_review. intros H.
  destruct r as [| | | | |l|d]; try discriminate H.
  rewrite author_of_dict in H. cbn [bind] in H.
  rewrite str_field_dict in H. unbind H.
  destruct (py_or (dict_get d "author" (PyDict [])) (PyDict [])) as [| | | | |l|a] eqn:Hor;
    try discriminate H.
  rewrite str_field_dict in H. repeat unbind H.
  injection H as <-. cbn [recommendationid steamid language review voted_up
    timestamp_created timestamp_updated author_num_games_owned author_num_reviews
    author_playtime_forever author_playtime_last_two_weeks author_playtime_at_review
    votes_up votes_funny weighted_vote_score comment_count steam_purchase
    received_for_free written_during_early_access].
  exists d, a. rewrite author_of_dict, Hor.
  repeat split; assumption.
Qed.


(** *** Totality on coercible records *)

Lemma normalize_returns_only_on_coercible (r : value) (n : NormalizedReview) :
  _normalize_review r = Ok n ->
  exists d a,
    r = PyDict d /\ author_shape d a /\
    (forall k, In k str_keys -> str_coercible (dict_get d k (PyStr "")) = true) /\
    (forall k, In k author_str_keys -> str_coercible (dict_get a k (PyStr "")) = true) /\
    (forall k, In k int_keys -> int_coercible (dict_get d k (PyInt 0)) = true) /\
    (forall k, In k author_int_keys -> int_coercible (dict_get a k (PyInt 0)) = true).
Proof.
  intros H. apply normalize_inv in H
    as (d & a & -> & Ha & S1 & S2 & _ & _ & _ & T1 & T2 & A1 & A2 & A3 & A4 & A5
        & V1 & V2 & S3 & C1 & _).
  exists d, a. split; [reflexivity|]. split; [now apply author_of_shape|].
  repeat split; intros k Hk; simpl in Hk; unfold str_coercible, int_coercible;
    repeat (destruct Hk as [<-|Hk];
            [match goal with
             | H : py_int ?v = Ok _ |- context [py_int ?v] => now rewrite H
             | H : py_str ?v = Ok _ |- context [py_str ?v] => now rewrite H
             end|]);
    contradiction.
Qed.

(** The limit on digits reaches the normaliser both ways: an integer
    under a key read with [str] makes it raise [ValueError] as soon as
    it has more digits than [max_str_digits], and is written out
    otherwise; a string under a key read with [int] makes it raise
    [ValueError] as soon as it has more digits than that, as the string
    of 4301 times the digit 1 has. *)
Lemma normalize_at_the_digit_limit (z : Z) (s : string) :
  ((max_str_digits <? digits_of z)%N = true ->
   _normalize_review (PyDict [("recommendationid", PyInt z)])
     = Raise (Exn ValueError None)) /\
  ((max_str_digits <? digits_of z)%N = false ->
   exists n,
     _normalize_review (PyDict [("recommendationid", PyInt z)]) = Ok n /\
     recommendationid n = decimal z) /\
  ((max_str_digits <? count_digits (strip (list_ascii_of_string s)))%N = true ->
   _normalize_review (PyDict [("votes_up", PyStr s)])
     = Raise (Exn ValueError None)) /\
  _normalize_review
    (PyDict [("votes_up", PyStr (string_of_list_ascii (repeat "1"%char 4301)))])
    = Raise (Exn ValueError None).
Proof.
  assert (I : forall t,
            (max_str_digits <? count_digits (strip (list_ascii_of_string t)))%N = true ->
            _normalize_review (PyDict [("votes_up", PyStr t)])
              = Raise (Exn ValueError None)).
  { intros t H. unfold _normalize_review, int_field, str_field, raw_field, bool_field.
    cbn [author_of py_get dict_get dict_lookup String.eqb Ascii.eqb Bool.eqb bind
         py_or py_bool py_str py_int].
    unfold int_of_str. now rewrite H. }
  assert (W : forall b, (max_str_digits <? digits_of z)%N = b ->
                        within_digits (PyInt z) = negb b).
  { intros b <-. cbn [within_digits]. now rewrite N.leb_antisym. }
  split; [|split; [|split; [apply I|]]].
  - intros H. unfold _normalize_review, str_field.
    cbn [author_of py_get dict_get dict_lookup String.eqb Ascii.eqb Bool.eqb bind
         py_or py_bool py_str].
    unfold py_repr. now rewrite (W _ H).
  - intros H. eexists. unfold _normalize_review, str_field.
    cbn [author_of py_get dict_get dict_lookup String.eqb Ascii.eqb Bool.eqb bind
         py_or py_bool py_str].
    unfold py_repr. rewrite (W _ H). split; reflexivity.
  - apply I. vm_compute. reflexivity.
Qed.

(** C1 (amended): on every raw review record that is a dict, whose
    author entry is absent, falsy or a dict, each of whose fields read
    with [str], at the top level and in the author, is absent or holds
    a value that [str] accepts, and each of whose integer fields, at
    the top level and in the author, is absent or holds a value that
    [int] accepts, [_normalize_review] returns a [NormalizedReview] and
    does not raise. *)
Theorem normalize_total_on_coercible_records (d a : dict) :
  author_shape d a ->
  (forall k, In k str_keys -> str_coercible (dict_get d k (PyStr "")) = true) ->
  (forall k, In k author_str_keys -> str_coercible (dict_get a k (PyStr "")) = true) ->
  (forall k, In k int_keys -> int_coercible (dict_get d k (PyInt 0)) = true) ->
  (forall k, In k author_int_keys -> int_coercible (dict_get a k (PyInt 0)) = true) ->
  exists n, _normalize_review (PyDict d) = Ok n.
Proof.
  intros Ha Sd Sau Hd Hau. apply author_of_shape in Ha.
  unfold _normalize_review. rewrite Ha. cbn [bind].
  rewrite !str_field_dict, !int_field_dict, !raw_field_dict, !bool_field_dict.
  coerce_str Sd "recommendationid". coerce_str Sau "steamid".
  coerce Hd "timestamp_created". coerce Hd "timestamp_updated".
  coerce Hau "num_games_owned". coerce Hau "num_reviews".
  coerce Hau "playtime_forever". coerce Hau "playtime_last_two_weeks".
  coerce Hau "playtime_at_review".
  coerce Hd "votes_up". coerce Hd "votes_funny".
  coerce_str Sd "weighted_vote_score". coerce Hd "comment_count".
  eauto.
Qed.

Lemma normalize_total_on_coercible_records_witness :
  exists n, _normalize_review sample_review = Ok n.
Proof.
  apply (normalize_total_on_coercible_records sample_fields []).
  - reflexivity.
  - intros k Hk. simpl in Hk.
    repeat (destruct Hk as [<-|Hk]; [reflexivity|]). contradiction.
  - intros k Hk. simpl in Hk.
    repeat (destruct Hk as [<-|Hk]; [reflexivity|]). contradiction.
  - intros k Hk. simpl in Hk.
    repeat (destruct Hk as [<-|Hk]; [reflexivity|]). contradiction.
  - intros k Hk. simpl in Hk.
    repeat (destruct Hk as [<-|Hk]; [reflexivity|]). contradiction.
Defined.

(** C1 as stated fails: a record with a non-numeric integer field, one
    whose author is a string, and one with a null integer field each make
    [_normalize_review] raise. *)
Lemma normalize_raises_on_uncoercible :
  _normalize_review (PyDict [("timestamp_created", PyStr "n/a")])
    = Raise (Exn ValueError None) /\
  _normalize_review (PyDict [("author", PyStr "anonymous")])
    = Raise (Exn AttributeError None) /\
  _normalize_review (PyDict [("votes_up", PyNone)])
    = Raise (Exn TypeError None).
Proof. repeat split. Qed.

(** *** The fields of a returned review *)

(** C2 (amended): whenever [_normalize_review] returns, the record was a
    dict and every field of the result follows its rule: the fields
    passed through [str] are the string of the source value when present
    and [""] when absent; [language] and [review] are the source string
    when the value is a string and [""] when absent; the integer fields
    are [int] of the source value when present and 0 when absent; the
    boolean fields are the truthiness of the source value when present
    and false when absent.  The author-derived fields read the author
    dict, empty when the author is absent or falsy. *)
Theorem normalize_fields_follow_rules (r : value) (n : NormalizedReview) :
  _normalize_review r = Ok n ->
  exists d a,
    r = PyDict d /\ author_shape d a /\
    str_rule d "recommendationid" (recommendationid n) /\
    str_rule a "steamid" (steamid n) /\
    text_rule d "language" (language n) /\
    text_rule d "review" (review n) /\
    bool_rule d "voted_up" (voted_up n) /\
    int_rule d "timestamp_created" (timestamp_created n) /\
    int_rule d "timestamp_updated" (timestamp_updated n) /\
    int_rule a "num_games_owned" (author_num_games_owned n) /\
    int_rule a "num_reviews" (author_num_reviews n) /\
    int_rule a "playtime_forever" (author_playtime_forever n) /\
    int_rule a "playtime_last_two_weeks" (author_playtime_last_two_weeks n) /\
    int_rule a "playtime_at_review" (author_playtime_at_review n) /\
    int_rule d "votes_up" (votes_up n) /\
    int_rule d "votes_funny" (votes_funny n) /\
    str_rule d "weighted_vote_score" (weighted_vote_score n) /\
    int_rule d "comment_count" (comment_count n) /\
    bool_rule d "steam_purchase" (steam_purchase n) /\
    bool_rule d "received_for_free" (received_for_free n) /\
    bool_rule d "written_during_early_access" (written_during_early_access n).
Proof.
  intros H. apply normalize_inv in H
    as (d & a & -> & Ha & F1 & F2 & F3 & F4 & F5 & F6 & F7 & F8 & F9 & F10 & F11
        & F12 & F13 & F14 & F15 & F16 & F17 & F18 & F19).
  exists d, a. split; [reflexivity|]. split; [now apply author_of_shape|].
  rewrite F3, F4, F5, F17, F18, F19.
  repeat split;
    auto using str_rule_get, text_rule_get, bool_rule_get, int_rule_get.
Qed.

Lemma normalize_fields_follow_rules_witness :
  exists n,
    _normalize_review sample_review = Ok n /\
    recommendationid n = "1001" /\ steamid n = "" /\ votes_up n = 12%Z /\
    weighted_vote_score n = "0" /\ voted_up n = true /\ steam_purchase n = false.
Proof.
  destruct (_normalize_review sample_review) as [n|e] eqn:H; [|discriminate H].
  exists n. split; [reflexivity|].
  destruct (normalize_fields_follow_rules sample_review n H)
    as (d & a & Hd & Ha & R1 & R2 & _ & _ & R5 & _ & _ & _ & _ & _ & _ & _ & R13
        & _ & R15 & _ & R17 & _).
  injection Hd as <-.
  unfold author_shape in Ha. simpl in Ha. subst a.
  unfold str_rule, int_rule, bool_rule in *. simpl in *.
  change (py_repr (PyInt 0)) with (@Ok string "0") in R15. injection R1 as R1. injection R13 as R13.
  injection R15 as R15. repeat split; congruence.
Defined.

(** C2 as stated fails twice over: a non-numeric integer field is not
    replaced by 0, the call raises; and [language] is handed on as it is,
    so an int stays an int rather than becoming its string. *)
Lemma normalize_fields_off_the_rules :
  _normalize_review (PyDict [("votes_up", PyStr "many")])
    = Raise (Exn ValueError None) /\
  exists n,
    _normalize_review (PyDict [("language", PyInt 5)]) = Ok n /\
    language n = PyInt 5 /\
    language n <> PyStr (str_text (PyInt 5)).
Proof.
  split; [reflexivity|]. eexists. split; [reflexivity|].
  split; [reflexivity|discriminate].
Qed.

(** *** A falsy author *)

Lemma dict_lookup_remove (k k' : string) (d : dict) :
  dict_lookup (dict_remove k d) k'
    = if String.eqb k k' then None else dict_lookup d k'.
Proof.
  induction d as [|[k0 v] d IH]; simpl.
  - now destruct (String.eqb k k').
  - destruct (String.eqb k0 k) eqn:E0.
    + apply String.eqb_eq in E0. subst k0. rewrite IH.
      now destruct (String.eqb k k').
    + simpl. rewrite IH. destruct (String.eqb k0 k') eqn:E1; [|reflexivity].
      apply String.eqb_eq in E1. subst k0. now rewrite String.eqb_sym, E0.
Qed.

Lemma py_get_remove (k k' : string) (d : dict) (dflt : value) :
  k <> k' ->
  py_get (PyDict (dict_remove k d)) k' dflt = py_get (PyDict d) k' dflt.
Proof.
  intros H. simpl. unfold dict_get. rewrite dict_lookup_remove.
  apply String.eqb_neq in H. now rewrite H.
Qed.

Lemma author_of_falsy (d : dict) (v : value) :
  dict_lookup d "author" = Some v -> py_bool v = false ->
  author_of (PyDict d) = Ok (PyDict []).
Proof.
  intros L F. rewrite author_of_dict. unfold dict_get, py_or. now rewrite L, F.
Qed.

Lemma author_of_removed (d : dict) :
  author_of (PyDict (dict_remove "author" d)) = Ok (PyDict []).
Proof.
  rewrite author_of_dict. unfold dict_get. now rewrite dict_lookup_remove.
Qed.

(** C9 (amended): a record whose author entry is present but null, or
    falsy in any other way, is normalised exactly as the same record
    without the entry, in result or in exception.  The author takes no
    part in an exception: line 51 yields the empty dict without
    raising, each of the author-derived reads on it returns its
    default, and the call returns exactly when the fields of the record
    itself that are read with [str] and with [int] are absent or hold a
    value that these accept.  A returned review has [""] as [steamid]
    and 0 in each integer author field. *)
Theorem falsy_author_reads_as_absent (d : dict) (v : value) :
  dict_lookup d "author" = Some v ->
  py_bool v = false ->
  _normalize_review (PyDict d) = _normalize_review (PyDict (dict_remove "author" d)) /\
  author_of (PyDict d) = Ok (PyDict []) /\
  str_field (PyDict []) "steamid" = Ok "" /\
  (forall k, int_field (PyDict []) k = Ok 0%Z) /\
  ((exists n, _normalize_review (PyDict d) = Ok n) <->
   (forall k, In k str_keys -> str_coercible (dict_get d k (PyStr "")) = true) /\
   (forall k, In k int_keys -> int_coercible (dict_get d k (PyInt 0)) = true)) /\
  forall n, _normalize_review (PyDict d) = Ok n ->
    steamid n = "" /\
    author_num_games_owned n = 0%Z /\
    author_num_reviews n = 0%Z /\
    author_playtime_forever n = 0%Z /\
    author_playtime_last_two_weeks n = 0%Z /\
    author_playtime_at_review n = 0%Z.
Proof.
  intros L F. pose proof (author_of_falsy d v L F) as A.
  split; [|split; [exact A|]]; [|split; [reflexivity|]; split; [reflexivity|]; split].
  - unfold _normalize_review. rewrite A, author_of_removed.
    unfold str_field, int_field, bool_field, raw_field.
    rewrite !(py_get_remove "author") by discriminate. reflexivity.
  - split.
    + intros [n H]. apply normalize_returns_only_on_coercible in H
        as (d' & a & Hd & _ & Sd & _ & Hi & _).
      injection Hd as <-. now split.
    + intros [Sd Hi]. unfold _normalize_review. rewrite A. cbn [bind].
      rewrite !str_field_dict, !int_field_dict, !raw_field_dict, !bool_field_dict.
      repeat match goal with
             | |- context [dict_get [] ?k ?x] => change (dict_get [] k x) with x
             end.
      coerce_str Sd "recommendationid". cbn [py_str py_int bind].
      coerce Hi "timestamp_created". coerce Hi "timestamp_updated".
      coerce Hi "votes_up". coerce Hi "votes_funny".
      coerce_str Sd "weighted_vote_score". coerce Hi "comment_count".
      eauto.
  - intros n H. apply normalize_inv in H
      as (d' & a & Hd & Ha & _ & F2 & _ & _ & _ & _ & _ & F8 & F9 & F10 & F11 & F12 & _).
    injection Hd as <-. rewrite A in Ha. injection Ha as <-.
    simpl in *. repeat split; congruence.
Qed.

(** C9 as stated fails: with a null author the call still raises when
    another field cannot be coerced. *)
Lemma falsy_author_leaves_other_errors :
  dict_lookup [("author", PyNone); ("votes_up", PyNone)] "author" = Some PyNone /\
  py_bool PyNone = false /\
  _normalize_review (PyDict [("author", PyNone); ("votes_up", PyNone)])
    = Raise (Exn TypeError None).
Proof. repeat split. Qed.

Lemma falsy_author_reads_as_absent_witness :
  exists n,
    _normalize_review (PyDict sample_fields) = Ok n /\
    _normalize_review (PyDict (dict_remove "author" sample_fields)) = Ok n /\
    steamid n = "" /\ author_num_reviews n = 0%Z /\ author_playtime_forever n = 0%Z.
Proof.
  destruct (falsy_author_reads_as_absent sample_fields PyNone eq_refl eq_refl)
    as (Same & _ & _ & _ & Returns & Defaults).
  destruct (proj2 Returns) as [n H].
  - split; intros k Hk; simpl in Hk;
      repeat (destruct Hk as [<-|Hk]; [reflexivity|]); contradiction.
  - exists n. destruct (Defaults n H) as (D1 & _ & D3 & D4 & _).
    split; [exact H|]. split; [now rewrite <- Same|]. auto.
Defined.

(** ** The paginator *)

(** *** One pass through the loop body *)

Section PaginatorFacts.
Context {World : Type} {E : Env World}.
Implicit Types (a : Args.t) (st : Loop.locals) (m : @machine World).

Lemma iteration_repeat a st m :
  set_mem (Loop.cursor st) (Loop.seen_cursors st) = Ok true ->
  iteration a st m = (m, Ok (Break st)).
Proof.
  intros H. unfold iteration, io_bind, lift. rewrite H. reflexivity.
Qed.

Lemma iteration_unhashable a st m e :
  set_mem (Loop.cursor st) (Loop.seen_cursors st) = Raise e ->
  iteration a st m = (m, Raise e).
Proof.
  intros H. unfold iteration, io_bind, lift. rewrite H. reflexivity.
Qed.

Lemma iteration_get_raises a st m w' e :
  set_mem (Loop.cursor st) (Loop.seen_cursors st) = Ok false ->
  sess_get (fst m) (request_for a (Loop.cursor st)) = (w', Raise e) ->
  iteration a st m = (fetched a st m w', Raise e).
Proof.
  intros H G. unfold iteration, io_bind, lift, http_get. rewrite H, G. reflexivity.
Qed.

Lemma iteration_bad_status a st m w' resp :
  fetches a st m w' resp -> status_code resp <> 200 ->
  iteration a st m =
    (fetched a st m w',
     Raise (Exn SteamReviewsError
              (Some ("HTTP " ++ decimal (status_code resp) ++ ": "
                       ++ substring 0 300 (text resp))))).
Proof.
  intros [H G] S. unfold iteration, io_bind, lift, http_get. rewrite H, G.
  apply Z.eqb_neq in S. rewrite S. reflexivity.
Qed.

Lemma iteration_json_raises a st m w' resp e :
  fetches a st m w' resp -> status_code resp = 200 -> json resp = Raise e ->
  iteration a st m = (fetched a st m w', Raise e).
Proof.
  intros [H G] S J. unfold iteration, io_bind, lift, http_get.
  rewrite H, G, S, J. reflexivity.
Qed.

Lemma iteration_upstream_failure a st m w' resp (d : dict) :
  fetches a st m w' resp -> status_code resp = 200 -> json resp = Ok (PyDict d) ->
  scalar_eq (dict_get d "success" PyNone) (PyInt 1) = false ->
  iteration a st m =
    (fetched a st m w',
     Raise (Exn SteamReviewsError
              (Some ("Steam returned success=" ++ str_text (dict_get d "success" PyNone)
                       ++ ": " ++ str_text (PyDict d))))).
Proof.
  intros [H G] S J U. unfold iteration, io_bind, lift, http_get.
  rewrite H, G, S, J. cbn [fst snd Z.eqb negb Pos.eqb py_get]. rewrite U. reflexivity.
Qed.

Lemma iteration_empty_page a st m w' resp (d : dict) :
  fetches a st m w' resp -> payload resp d ->
  py_bool (dict_get d "reviews" PyNone) = false ->
  iteration a st m =
    (fetched a st m w', Ok (Break (ended st (dict_get d "cursor" (Loop.cursor st))))).
Proof.
  intros [H G] (S & J & U) R. unfold iteration, io_bind, lift, http_get.
  rewrite H, G, S, J. cbn [fst snd Z.eqb negb Pos.eqb py_get]. rewrite U.
  cbn [negb]. unfold py_or. rewrite R. reflexivity.
Qed.

Lemma iteration_page a st m w' resp (d : dict) raw acc :
  fetches a st m w' resp -> payload resp d ->
  py_bool (dict_get d "reviews" PyNone) = true ->
  extend_raw a (Loop.raw_reviews st) (dict_get d "reviews" PyNone) = Ok raw ->
  extend_normalized a (Loop.normalized_reviews st) (dict_get d "reviews" PyNone) = Ok acc ->
  iteration a st m =
    match cap_reached a acc with
    | Some cap =>
        (fetched a st m w',
         Ok (Break {| Loop.cursor := dict_get d "cursor" (Loop.cursor st);
                      Loop.seen_cursors := Loop.cursor st :: Loop.seen_cursors st;
                      Loop.normalized_reviews := slice_to cap acc;
                      Loop.raw_reviews :=
                        if Args.include_raw a then slice_to cap raw else raw |}))
    | None =>
        match time_sleep w' (Args.sleep_seconds a) with
        | (w'', Ok _) =>
            ((w'', (snd (fetched a st m w') ++ [EvSleep (Args.sleep_seconds a)])%list),
             Ok (Continue {| Loop.cursor := dict_get d "cursor" (Loop.cursor st);
                             Loop.seen_cursors := Loop.cursor st :: Loop.seen_cursors st;
                             Loop.normalized_reviews := acc;
                             Loop.raw_reviews := raw |}))
        | (w'', Raise e) =>
            ((w'', (snd (fetched a st m w') ++ [EvSleep (Args.sleep_seconds a)])%list),
             Raise e)
        end
    end.
Proof.
  intros [H G] (S & J & U) R X Y. unfold iteration, io_bind, lift, http_get.
  rewrite H, G, S, J. cbn [fst snd Z.eqb negb Pos.eqb py_get]. rewrite U.
  cbn [negb]. unfold py_or. rewrite R. cbv iota. rewrite R. cbn [negb]. rewrite X, Y.
  destruct (cap_reached a acc); [reflexivity|].
  unfold sleep, fetched. cbn [fst snd].
  destruct (time_sleep w' (Args.sleep_seconds a)) as [w'' [[]|e]]; reflexivity.
Qed.

(** Every way a pass can go, by what it adds to the log. *)
Lemma iteration_cases a st m m' r :
  iteration a st m = (m', r) ->
  (m' = m /\
     (r = Ok (Break st) /\ set_mem (Loop.cursor st) (Loop.seen_cursors st) = Ok true
      \/ exists e, r = Raise e))
  \/ (set_mem (Loop.cursor st) (Loop.seen_cursors st) = Ok false /\
      snd m' = (snd m ++ [EvGet (request_for a (Loop.cursor st))])%list /\
      ((exists e, r = Raise e) \/ exists st', r = Ok (Break st')))
  \/ (set_mem (Loop.cursor st) (Loop.seen_cursors st) = Ok false /\
      snd m' = (snd m ++ [EvGet (request_for a (Loop.cursor st));
                          EvSleep (Args.sleep_seconds a)])%list /\
      (exists w' resp d acc,
          fetches a st m w' resp /\ payload resp d /\
          py_bool (dict_get d "reviews" PyNone) = true /\
          extend_normalized a (Loop.normalized_reviews st)
            (dict_get d "reviews" PyNone) = Ok acc /\
          cap_reached a acc = None) /\
      ((exists e, r = Raise e)
       \/ exists st', r = Ok (Continue st') /\
            Loop.seen_cursors st' = Loop.cursor st :: Loop.seen_cursors st)).
Proof.
  intros H.
  destruct (set_mem (Loop.cursor st) (Loop.seen_cursors st)) as [[|]|e] eqn:M.
  - rewrite iteration_repeat in H by assumption. injection H as <- <-. left. auto.
  - right.
    destruct (sess_get (fst m) (request_for a (Loop.cursor st))) as [w' [resp|e]] eqn:G.
    2:{ rewrite (iteration_get_raises a st m w' e) in H by assumption.
        injection H as <- <-. left. repeat split; eauto. }
    assert (F : fetches a st m w' resp) by (split; assumption).
    destruct (Z.eq_dec (status_code resp) 200) as [S|S].
    2:{ rewrite (iteration_bad_status a st m w' resp) in H by assumption.
        injection H as <- <-. left. repeat split; eauto. }
    destruct (json resp) as [data|e] eqn:J.
    2:{ rewrite (iteration_json_raises a st m w' resp e) in H by assumption.
        injection H as <- <-. left. repeat split; eauto. }
    destruct data as [| | | | |l|d].
    1-6: unfold iteration, io_bind, lift, http_get in H; rewrite M, G, S, J in H;
      injection H as <- <-; left; repeat split; eauto.
    destruct (scalar_eq (dict_get d "success" PyNone) (PyInt 1)) eqn:U.
    2:{ rewrite (iteration_upstream_failure a st m w' resp d) in H by assumption.
        injection H as <- <-. left. repeat split; eauto. }
    assert (P : payload resp d) by (repeat split; assumption).
    destruct (py_bool (dict_get d "reviews" PyNone)) eqn:R.
    2:{ rewrite (iteration_empty_page a st m w' resp d) in H by assumption.
        injection H as <- <-. left. repeat split; eauto. }
    destruct (extend_raw a (Loop.raw_reviews st) (dict_get d "reviews" PyNone))
      as [raw|e] eqn:X.
    2:{ unfold iteration, io_bind, lift, http_get in H. rewrite M, G, S, J in H.
        cbn [fst snd Z.eqb negb Pos.eqb py_get] in H. rewrite U in H.
        cbn [negb] in H. unfold py_or in H. rewrite R in H. cbv iota in H.
        rewrite R in H. cbn [negb] in H.
        rewrite X in H. injection H as <- <-. left. repeat split; eauto. }
    destruct (extend_normalized a (Loop.normalized_reviews st) (dict_get d "reviews" PyNone))
      as [acc|e] eqn:Y.
    2:{ unfold iteration, io_bind, lift, http_get in H. rewrite M, G, S, J in H.
        cbn [fst snd Z.eqb negb Pos.eqb py_get] in H. rewrite U in H.
        cbn [negb] in H. unfold py_or in H. rewrite R in H. cbv iota in H.
        rewrite R in H. cbn [negb] in H.
        rewrite X, Y in H. injection H as <- <-. left. repeat split; eauto. }
    rewrite (iteration_page a st m w' resp d raw acc) in H by assumption.
    destruct (cap_reached a acc) eqn:Cap.
    { injection H as <- <-. left. repeat split; eauto. }
    destruct (time_sleep w' (Args.sleep_seconds a)) as [w'' [[]|e]];
      injection H as <- <-; right; (split; [reflexivity|]); cbn [snd fetched];
      rewrite <- app_assoc; (split; [reflexivity|]);
      (split; [exists w', resp, d, acc; auto|]); eauto.
  - rewrite (iteration_unhashable a st m e) in H by assumption.
    injection H as <- <-. left. eauto.
Qed.
End PaginatorFacts.

(** *** Whole runs *)

Section LoopFacts.
Context {World : Type} {E : Env World}.
Implicit Types (a : Args.t) (st : Loop.locals) (m : @machine World).

Lemma while_true_passes n k a st m st' m' :
  passes n a st m = Some (st', m') ->
  while_true (n + k) a st m = while_true k a st' m'.
Proof.
  revert st m. induction n as [|n IH]; intros st m H; simpl in *.
  - injection H as <- <-. reflexivity.
  - destruct (iteration a st m) as [m1 [[st1|st1]|e]]; try discriminate.
    apply IH, H.
Qed.

Lemma run_from_passes n k a st m st' m' :
  passes n a st m = Some (st', m') ->
  run_from (n + k) a st m = run_from k a st' m'.
Proof.
  intros H. unfold run_from. rewrite (while_true_passes n k a st m st' m' H).
  reflexivity.
Qed.

Lemma fetch_at_top a (w : World) n st m k :
  at_top a w n st m ->
  fetch_all_steam_reviews_for_app (n + k) a w = run_from k a st m.
Proof.
  intros [V P]. unfold fetch_all_steam_reviews_for_app. rewrite V. simpl.
  apply run_from_passes, P.
Qed.

Lemma run_from_break a st m m' st' k :
  iteration a st m = (m', Ok (Break st')) ->
  run_from (S k) a st m = (m', Returned (envelope a st' (utc_now_iso (fst m')))).
Proof. intros H. unfold run_from. simpl. rewrite H. reflexivity. Qed.

Lemma run_from_raise a st m m' e k :
  iteration a st m = (m', Raise e) ->
  run_from (S k) a st m = (m', Raised e).
Proof. intros H. unfold run_from. simpl. rewrite H. reflexivity. Qed.

Lemma run_from_log fuel a st m :
  snd (fst (run_from fuel a st m)) = snd (fst (while_true fuel a st m)).
Proof.
  unfold run_from. destruct (while_true fuel a st m) as [m' [st'|e|]]; reflexivity.
Qed.

(** *** The set of seen cursors and the requests of the log *)

Lemma requested_cursors_app (l1 l2 : list event) :
  requested_cursors (l1 ++ l2) = (requested_cursors l1 ++ requested_cursors l2)%list.
Proof.
  induction l1 as [|[rq|s] l1 IH]; simpl; [reflexivity| |assumption].
  now rewrite IH.
Qed.

Lemma cursor_of_request a (c : value) : cursor_of (request_for a c) = c.
Proof. reflexivity. Qed.

Lemma num_eqb_refl (x : num) : num_eqb x x = true.
Proof.
  destruct x as [mm e|s|]; simpl; [apply Z.eqb_refl|apply Bool.eqb_reflx|reflexivity].
Qed.

Lemma scalar_eq_refl (v : value) : hashable v = true -> scalar_eq v v = true.
Proof.
  destruct v as [|b|z|f|s|l|d]; try discriminate; intros _;
    try reflexivity; try (apply (num_eqb_refl (Dyadic _ _))).
  - destruct f; apply (num_eqb_refl (Dyadic 0 0)) || apply (num_eqb_refl (Inf _))
      || apply (num_eqb_refl NaN) || apply (num_eqb_refl (Dyadic _ _)).
  - apply String.eqb_refl.
Qed.

Lemma set_mem_fresh (c : value) (seen : list value) :
  set_mem c seen = Ok false -> hashable c = true /\ ~ In c seen.
Proof.
  unfold set_mem. destruct (hashable c) eqn:Hc; [|discriminate].
  intros H. injection H as H. split; [reflexivity|].
  intros Hin. assert (X : existsb (scalar_eq c) seen = true).
  { apply existsb_exists. exists c. split; [assumption|]. now apply scalar_eq_refl. }
  congruence.
Qed.

Lemma set_mem_seen (c : value) (seen : list value) :
  forallb hashable seen = true -> In c seen -> set_mem c seen = Ok true.
Proof.
  intros Hall Hin. unfold set_mem.
  assert (Hc : hashable c = true).
  { rewrite forallb_forall in Hall. now apply Hall. }
  rewrite Hc. f_equal. apply existsb_exists. exists c. split; [assumption|].
  now apply scalar_eq_refl.
Qed.

Lemma cursor_inv_init : cursor_inv Loop.init [].
Proof. repeat split. constructor. Qed.

Lemma cursor_inv_nodup st log : cursor_inv st log -> NoDup (requested_cursors log).
Proof.
  intros (H & N & _). rewrite H. apply NoDup_rev, N.
Qed.

Lemma cursor_inv_request st log a tail :
  cursor_inv st log ->
  set_mem (Loop.cursor st) (Loop.seen_cursors st) = Ok false ->
  requested_cursors tail = [] ->
  NoDup (requested_cursors (log ++ EvGet (request_for a (Loop.cursor st)) :: tail)).
Proof.
  intros (H & N & _) M T. apply set_mem_fresh in M as [_ M].
  rewrite requested_cursors_app. simpl. rewrite T, H, cursor_of_request.
  change (rev (Loop.seen_cursors st) ++ [Loop.cursor st])%list
    with (rev (Loop.cursor st :: Loop.seen_cursors st)).
  apply NoDup_rev. now constructor.
Qed.

Lemma iteration_cursor_inv a st m m' st' :
  cursor_inv st (snd m) ->
  iteration a st m = (m', Ok (Continue st')) ->
  cursor_inv st' (snd m').
Proof.
  intros I H. destruct (iteration_cases a st m m' _ H)
    as [(_ & [(X & _)|(e & X)])|[(_ & _ & [(e & X)|(s & X)])|(M & L & _ & [(e & X)|(s & X & S)])]];
    try discriminate X.
  injection X as ->.
  destruct I as (R & N & A). apply set_mem_fresh in M as [Hc M].
  unfold cursor_inv. rewrite S, L, requested_cursors_app. simpl.
  rewrite R, cursor_of_request, Hc, A. repeat split. now constructor.
Qed.

Lemma iteration_nodup a st m m' r :
  cursor_inv st (snd m) ->
  iteration a st m = (m', r) ->
  NoDup (requested_cursors (snd m')).
Proof.
  intros I H. destruct (iteration_cases a st m m' _ H)
    as [(-> & _)|[(M & -> & _)|(M & -> & _)]].
  - eapply cursor_inv_nodup, I.
  - now apply cursor_inv_request.
  - now apply cursor_inv_request.
Qed.

Lemma while_true_nodup fuel a st m :
  cursor_inv st (snd m) ->
  NoDup (requested_cursors (snd (fst (while_true fuel a st m)))).
Proof.
  revert st m. induction fuel as [|fuel IH]; intros st m I; simpl.
  - eapply cursor_inv_nodup, I.
  - destruct (iteration a st m) as [m1 r] eqn:H.
    destruct r as [[st1|st1]|e]; simpl.
    + eapply iteration_nodup; eauto.
    + apply IH. eapply iteration_cursor_inv; eauto.
    + eapply iteration_nodup; eauto.
Qed.

Lemma passes_cursor_inv n a st m st' m' :
  cursor_inv st (snd m) -> passes n a st m = Some (st', m') -> cursor_inv st' (snd m').
Proof.
  revert st m. induction n as [|n IH]; intros st m I H; simpl in H.
  - injection H as <- <-. assumption.
  - destruct (iteration a st m) as [m1 [[st1|st1]|e]] eqn:X; try discriminate.
    eapply IH; [|eassumption]. eapply iteration_cursor_inv; eauto.
Qed.

(** *** Requests and delays alternate *)






End LoopFacts.

(** *** Sequences of pages handed out by the scripted session *)

Section PageSequences.
Implicit Types (a : Args.t) (st : Loop.locals) (ps : list (list value * string)).

Lemma map_result_app {A B : Type} (f : A -> result B) (l1 l2 : list A) :
  map_result f (l1 ++ l2) =
    bind (map_result f l1) (fun x => bind (map_result f l2) (fun y => Ok (x ++ y)%list)).
Proof.
  induction l1 as [|x l1 IH]; simpl.
  - destruct (map_result f l2); reflexivity.
  - destruct (f x) as [y|e]; simpl; [|reflexivity]. rewrite IH.
    destruct (map_result f l1) as [ys|e]; simpl; [|reflexivity].
    destruct (map_result f l2); reflexivity.
Qed.

Lemma map_result_length {A B : Type} (f : A -> result B) (l : list A) (l' : list B) :
  map_result f l = Ok l' -> length l' = length l.
Proof.
  revert l'. induction l as [|x l IH]; simpl; intros l' H.
  - now injection H as <-.
  - destruct (f x) as [y|e]; [|discriminate]. simpl in H.
    destruct (map_result f l) as [ys|e]; [|discriminate]. simpl in H.
    injection H as <-. simpl. f_equal. now apply IH.
Qed.

Lemma items_of_app a (l1 l2 : list value) (its : list item) :
  items_of a (l1 ++ l2) = Ok its ->
  exists i1 i2, items_of a l1 = Ok i1 /\ items_of a l2 = Ok i2 /\ its = (i1 ++ i2)%list.
Proof.
  unfold items_of. destruct (Args.normalize a).
  - rewrite map_result_app.
    destruct (map_result _normalize_review l1) as [n1|e]; [|discriminate]. simpl.
    destruct (map_result _normalize_review l2) as [n2|e]; [|discriminate]. simpl.
    intros H. injection H as <-. exists (map Normalized n1), (map Normalized n2).
    rewrite map_app. auto.
  - intros H. injection H as <-. exists (map AsIs l1), (map AsIs l2).
    rewrite map_app. auto.
Qed.

Lemma items_of_length a (l : list value) (its : list item) :
  items_of a l = Ok its -> length its = length l.
Proof.
  unfold items_of. destruct (Args.normalize a).
  - destruct (map_result _normalize_review l) as [ns|e] eqn:H; [|discriminate].
    simpl. intros X. injection X as <-. rewrite length_map.
    eapply map_result_length, H.
  - intros X. injection X as <-. apply length_map.
Qed.

Lemma extend_normalized_list a (acc : list item) (l : list value) (its : list item) :
  items_of a l = Ok its ->
  extend_normalized a acc (PyList l) = Ok (acc ++ its)%list.
Proof.
  unfold items_of, extend_normalized. simpl. destruct (Args.normalize a).
  - destruct (map_result _normalize_review l); [|discriminate]. simpl.
    intros H. now injection H as <-.
  - intros H. now injection H as <-.
Qed.

Lemma extend_raw_list a (raw l : list value) :
  extend_raw a raw (PyList l) = Ok (if Args.include_raw a then (raw ++ l)%list else raw).
Proof. unfold extend_raw. destruct (Args.include_raw a); reflexivity. Qed.

Lemma page_payload (revs : list value) (next : string) :
  payload (page revs next)
    [("success", PyInt 1); ("cursor", PyStr next); ("reviews", PyList revs)].
Proof. repeat split. Qed.

Lemma scalar_eq_str (s : string) (v : value) :
  scalar_eq (PyStr s) v = true -> v = PyStr s.
Proof.
  destruct v; simpl; try discriminate.
  intros H. apply String.eqb_eq in H. now subst.
Qed.

Lemma set_mem_str_fresh (s : string) (seen : list value) :
  ~ In (PyStr s) seen -> set_mem (PyStr s) seen = Ok false.
Proof.
  intros H. unfold set_mem. simpl. f_equal.
  destruct (existsb (scalar_eq (PyStr s)) seen) eqn:X; [|reflexivity].
  apply existsb_exists in X as (v & Hin & Hv). apply scalar_eq_str in Hv. now subst.
Qed.

Lemma records_cons (p : list value * string) ps :
  records (p :: ps) = (fst p ++ records ps)%list.
Proof. reflexivity. Qed.

Lemma firstn_covered {A : Type} (n : nat) (l1 l2 : list A) :
  (n <= length l1)%nat -> firstn n (l1 ++ l2) = firstn n l1.
Proof.
  intros H. rewrite firstn_app.
  replace (n - length l1)%nat with 0%nat by lia. simpl. apply app_nil_r.
Qed.

Lemma slice_to_nonneg {A : Type} (n : Z) (l : list A) :
  0 <= n -> slice_to n l = firstn (Z.to_nat n) l.
Proof.
  intros H. unfold slice_to. apply Z.leb_le in H. now rewrite H.
Qed.

(** One pass of the scripted run at a page with something in it. *)
Lemma scripted_pass a st (revs : list value) (next : string) (w : script)
  (log : list event) (c : string) (i1 : list item) :
  Loop.cursor st = PyStr c ->
  ~ In (PyStr c) (Loop.seen_cursors st) ->
  revs <> [] ->
  items_of a revs = Ok i1 ->
  let acc := (Loop.normalized_reviews st ++ i1)%list in
  let raw := if Args.include_raw a then (Loop.raw_reviews st ++ revs)%list
             else Loop.raw_reviews st in
  let log1 := (log ++ [EvGet (request_for a (PyStr c))])%list in
  iteration a st (Ok (page revs next) :: w, log) =
    match cap_reached a acc with
    | Some cap =>
        ((w, log1),
         Ok (Break {| Loop.cursor := PyStr next;
                      Loop.seen_cursors := PyStr c :: Loop.seen_cursors st;
                      Loop.normalized_reviews := slice_to cap acc;
                      Loop.raw_reviews :=
                        if Args.include_raw a then slice_to cap raw else raw |}))
    | None =>
        ((w, (log1 ++ [EvSleep (Args.sleep_seconds a)])%list),
         Ok (Continue {| Loop.cursor := PyStr next;
                         Loop.seen_cursors := PyStr c :: Loop.seen_cursors st;
                         Loop.normalized_reviews := acc;
                         Loop.raw_reviews := raw |}))
    end.
Proof.
  intros Hc Hf Hr Hi acc raw log1.
  assert (F : fetches a st (Ok (page revs next) :: w, log) w (page revs next)).
  { split; [rewrite Hc; now apply set_mem_str_fresh|reflexivity]. }
  rewrite (iteration_page a st _ w (page revs next) _ raw acc F (page_payload revs next)).
  - unfold fetched. cbn [fst snd]. rewrite Hc.
    destruct (cap_reached a acc); reflexivity.
  - destruct revs; [congruence|reflexivity].
  - apply extend_raw_list.
  - now apply extend_normalized_list.
Qed.

Lemma capped_pages a (C : Z) :
  Args.max_reviews a = Some C -> 0 <= C ->
  forall ps st (rest : script) (log : list event) (c : string) (its : list item)
         (fuel : nat),
  Loop.cursor st = PyStr c ->
  Forall (fun p => fst p <> []) ps ->
  NoDup (c :: map snd ps) ->
  (forall s, In s (c :: map snd ps) -> ~ In (PyStr s) (Loop.seen_cursors st)) ->
  items_of a (records ps) = Ok its ->
  C <= Z.of_nat (length (Loop.normalized_reviews st) + length its) ->
  ps <> [] ->
  (length ps <= fuel)%nat ->
  (Args.include_raw a = true ->
   length (Loop.raw_reviews st) = length (Loop.normalized_reviews st)) ->
  exists k m' st',
    while_true fuel a st (script_of ps ++ rest, log)%list = (m', Returned st') /\
    Loop.normalized_reviews st'
      = firstn (Z.to_nat C) (Loop.normalized_reviews st ++ its) /\
    Loop.raw_reviews st'
      = (if Args.include_raw a
         then firstn (Z.to_nat C) (Loop.raw_reviews st ++ records ps)
         else Loop.raw_reviews st) /\
    length (requested_cursors (snd m'))
      = (length (requested_cursors log) + k)%nat /\
    (1 <= k <= length ps)%nat /\
    C <= Z.of_nat (length (Loop.normalized_reviews st)
                   + length (records (firstn k ps))) /\
    (forall j, (1 <= j < k)%nat ->
       Z.of_nat (length (Loop.normalized_reviews st)
                 + length (records (firstn j ps))) < C).
Proof.
  intros Hcap HC.
  induction ps as [|[revs next] ps IH];
    intros st rest log c its fuel Hc Hne Hnd Hfresh Hits Htot Hps Hfuel Hraw;
    [congruence|].
  destruct fuel as [|fuel]; [simpl in Hfuel; lia|].
  rewrite records_cons in Hits. cbn [fst] in Hits.
  apply items_of_app in Hits as (i1 & i2 & Hi1 & Hi2 & ->).
  pose proof (items_of_length _ _ _ Hi1) as L1.
  pose proof (items_of_length _ _ _ Hi2) as L2.
  inversion Hne as [|? ? Hrevs Hne']; subst. cbn [fst] in Hrevs.
  assert (Hfc : ~ In (PyStr c) (Loop.seen_cursors st))
    by (apply Hfresh; now left).
  cbn [script_of map app fst snd while_true].
  rewrite (scripted_pass a st revs next _ log c i1 Hc Hfc Hrevs Hi1).
  unfold cap_reached. rewrite Hcap.
  destruct (C <=? Z.of_nat (length (Loop.normalized_reviews st ++ i1)))%Z eqn:Hreach.
  - apply Z.leb_le in Hreach. rewrite length_app in Hreach.
    exists 1%nat. eexists. eexists. split; [reflexivity|]. cbn [Loop.normalized_reviews Loop.raw_reviews snd].
    split; [|split; [|split; [|split; [|split]]]].
    + rewrite slice_to_nonneg by assumption. rewrite app_assoc.
      symmetry. apply firstn_covered. rewrite length_app. lia.
    + destruct (Args.include_raw a) eqn:Hir; [|reflexivity].
      rewrite slice_to_nonneg by assumption. rewrite records_cons. cbn [fst].
      rewrite app_assoc. symmetry. apply firstn_covered.
      rewrite length_app, Hraw by reflexivity. lia.
    + rewrite requested_cursors_app. simpl. rewrite length_app. reflexivity.
    + simpl. lia.
    + cbn [firstn]. rewrite records_cons. cbn [fst records map concat].
      rewrite app_nil_r. lia.
    + intros j Hj. lia.
  - apply Z.leb_gt in Hreach. rewrite length_app in Hreach, Htot.
    assert (Hps' : ps <> []).
    { intros ->. unfold items_of in Hi2. simpl in Hi2.
      destruct (Args.normalize a); simpl in Hi2; injection Hi2 as <-; simpl in *; lia. }
    inversion Hnd as [|? ? Hc1 Hnd1]; subst. cbn [map snd] in *.
    destruct (IH {| Loop.cursor := PyStr next;
                    Loop.seen_cursors := PyStr c :: Loop.seen_cursors st;
                    Loop.normalized_reviews := (Loop.normalized_reviews st ++ i1)%list;
                    Loop.raw_reviews :=
                      if Args.include_raw a then (Loop.raw_reviews st ++ revs)%list
                      else Loop.raw_reviews st |}
                 rest
                 ((log ++ [EvGet (request_for a (PyStr c))]) ++
                    [EvSleep (Args.sleep_seconds a)])%list
                 next i2 fuel)
      as (k & m' & st' & Hrun & Hn & Hr & Hq & Hk & Hge & Hlt).
    + reflexivity.
    + assumption.
    + assumption.
    + cbn [Loop.seen_cursors]. intros s Hs [Heq|Hin].
      * injection Heq as ->. apply Hc1. exact Hs.
      * apply (Hfresh s); [right; exact Hs|exact Hin].
    + assumption.
    + cbn [Loop.normalized_reviews]. rewrite length_app. lia.
    + assumption.
    + simpl in Hfuel. lia.
    + cbn [Loop.normalized_reviews Loop.raw_reviews]. intros Hir. rewrite Hir.
      rewrite !length_app, Hraw by assumption. lia.
    + cbn [Loop.normalized_reviews Loop.raw_reviews] in *.
      exists (S k), m', st'. split; [exact Hrun|].
      split; [|split; [|split; [|split; [|split]]]].
      * rewrite Hn. now rewrite <- app_assoc.
      * rewrite Hr. destruct (Args.include_raw a); [|reflexivity].
        rewrite records_cons. cbn [fst]. now rewrite <- app_assoc.
      * rewrite Hq. rewrite !requested_cursors_app. simpl. rewrite !length_app.
        simpl. lia.
      * simpl. lia.
      * cbn [firstn]. rewrite records_cons. cbn [fst]. rewrite !length_app in *. lia.
      * intros j Hj. destruct j as [|j]; [lia|]. cbn [firstn]. rewrite records_cons.
        cbn [fst]. rewrite length_app. destruct j as [|j].
        -- simpl. lia.
        -- specialize (Hlt (S j)). rewrite length_app in Hlt. lia.
Qed.
End PageSequences.

(** ** The claims about the paginator *)

Lemma substring_prefix (n : nat) (s : string) : prefix (substring 0 n s) s = true.
Proof.
  revert s. induction n as [|n IH]; intros [|c s]; simpl; try reflexivity.
  destruct (ascii_dec c c) as [_|N]; [apply IH|congruence].
Qed.

Lemma substring_length (n : nat) (s : string) :
  (String.length (substring 0 n s) <= n)%nat.
Proof.
  revert s. induction n as [|n IH]; intros [|c s]; simpl; try lia.
  specialize (IH s). lia.
Qed.

Section PaginatorClaims.
Context {World : Type} {E : Env World}.
Implicit Types (a : Args.t) (st : Loop.locals) (m : @machine World) (w : World).

(** C6: a [num_per_page] outside 1..100 makes the call raise the
    [ValueError] of line 101 before anything is asked of the session:
    the world is untouched and the log of requests is empty. *)
Theorem page_size_checked_before_any_request (fuel : nat) a w :
  Args.num_per_page a < 1 \/ 100 < Args.num_per_page a ->
  fetch_all_steam_reviews_for_app fuel a w
    = ((w, []),
       Raised (Exn ValueError (Some "num_per_page must be between 1 and 100"))).
Proof.
  intros H. unfold fetch_all_steam_reviews_for_app, valid_page_size.
  destruct (1 <=? Args.num_per_page a)%Z eqn:L;
    destruct (Args.num_per_page a <=? 100)%Z eqn:U; try reflexivity.
  apply Z.leb_le in L, U. lia.
Qed.

(** A run that is at the top of the loop leaves it, or fails, with the
    pass made there. *)
Lemma fetch_breaks_at a w n st m m' st' k :
  at_top a w n st m ->
  iteration a st m = (m', Ok (Break st')) ->
  fetch_all_steam_reviews_for_app (n + S k) a w
    = (m', Returned (envelope a st' (utc_now_iso (fst m')))).
Proof.
  intros T H. rewrite (fetch_at_top a w n st m (S k) T). now apply run_from_break.
Qed.

Lemma fetch_raises_at a w n st m m' e k :
  at_top a w n st m ->
  iteration a st m = (m', Raise e) ->
  fetch_all_steam_reviews_for_app (n + S k) a w = (m', Raised e).
Proof.
  intros T H. rewrite (fetch_at_top a w n st m (S k) T). now apply run_from_raise.
Qed.

(** C7: when the page fetched at some pass comes with a status other
    than 200, the call raises [SteamReviewsError] with the status code
    and the first 300 characters at most of the body in its message;
    when its payload has a [success] other than 1, the call raises
    [SteamReviewsError] with that value and the [repr] of the payload in
    its message.  Either way the outcome of the call is the exception,
    whatever was collected before. *)
Theorem failures_reach_the_caller a w n st m w' resp :
  at_top a w n st m ->
  fetches a st m w' resp ->
  prefix (substring 0 300 (text resp)) (text resp) = true /\
  (String.length (substring 0 300 (text resp)) <= 300)%nat /\
  (status_code resp <> 200 ->
   forall k,
     fetch_all_steam_reviews_for_app (n + S k) a w
       = (fetched a st m w',
          Raised (Exn SteamReviewsError
                    (Some ("HTTP " ++ decimal (status_code resp) ++ ": "
                             ++ substring 0 300 (text resp)))))) /\
  (forall d,
     status_code resp = 200 ->
     json resp = Ok (PyDict d) ->
     scalar_eq (dict_get d "success" PyNone) (PyInt 1) = false ->
     forall k,
       fetch_all_steam_reviews_for_app (n + S k) a w
         = (fetched a st m w',
            Raised (Exn SteamReviewsError
                      (Some ("Steam returned success="
                               ++ str_text (dict_get d "success" PyNone)
                               ++ ": " ++ repr_text (PyDict d)))))).
Proof.
  intros T F. split; [apply substring_prefix|]. split; [apply substring_length|].
  split.
  - intros S k. eapply fetch_raises_at; [eassumption|].
    now apply iteration_bad_status.
  - intros d S J U k. eapply fetch_raises_at; [eassumption|].
    now apply (iteration_upstream_failure a st m w' resp d).
Qed.

Lemma fetch_ends_on_empty_page a w n st m w' resp (d : dict) k :
  at_top a w n st m ->
  fetches a st m w' resp ->
  payload resp d ->
  py_bool (dict_get d "reviews" PyNone) = false ->
  fetch_all_steam_reviews_for_app (n + S k) a w
    = (fetched a st m w',
       Returned (envelope a (ended st (dict_get d "cursor" (Loop.cursor st)))
                   (utc_now_iso w'))).
Proof.
  intros T F P R.
  rewrite (fetch_breaks_at a w n st m (fetched a st m w')
             (ended st (dict_get d "cursor" (Loop.cursor st))) k T).
  - reflexivity.
  - now apply (iteration_empty_page a st m w' resp d).
Qed.

(** C5: when the page fetched at some pass is a successful one whose
    list of reviews is empty, the call returns at that page, with no
    further request or delay; the reviews returned are those collected
    before it, and [last_cursor] is the cursor that page came with. *)
Theorem empty_page_ends_the_run a w n st m w' resp (d : dict) (next : value) :
  at_top a w n st m ->
  fetches a st m w' resp ->
  payload resp d ->
  dict_lookup d "reviews" = Some (PyList []) ->
  dict_lookup d "cursor" = Some next ->
  forall k, exists res,
    fetch_all_steam_reviews_for_app (n + S k) a w
      = (fetched a st m w', Returned res) /\
    reviews res = Loop.normalized_reviews st /\
    count res = Z.of_nat (length (Loop.normalized_reviews st)) /\
    raw_reviews res
      = (if Args.include_raw a then Some (Loop.raw_reviews st) else None) /\
    last_cursor res = next.
Proof.
  intros T F P R C k. eexists. split.
  - apply (fetch_ends_on_empty_page a w n st m w' resp d k T F P).
    unfold dict_get. now rewrite R.
  - cbn [envelope ended reviews count raw_reviews last_cursor
         Loop.normalized_reviews Loop.raw_reviews Loop.cursor].
    unfold dict_get. rewrite C. auto.
Qed.

(** C10: a successful payload in which ["reviews"] is absent or null is
    taken as an empty page: the call does not raise, it returns at that
    page with the reviews collected before it; and when the payload has
    no ["cursor"] either, [last_cursor] is the cursor the request was
    made with. *)
Theorem missing_reviews_read_as_empty_page a w n st m w' resp (d : dict) :
  at_top a w n st m ->
  fetches a st m w' resp ->
  payload resp d ->
  dict_lookup d "reviews" = None \/ dict_lookup d "reviews" = Some PyNone ->
  forall k, exists res,
    fetch_all_steam_reviews_for_app (n + S k) a w
      = (fetched a st m w', Returned res) /\
    reviews res = Loop.normalized_reviews st /\
    (dict_lookup d "cursor" = None ->
     last_cursor res = Loop.cursor st /\
     last_cursor res = cursor_of (request_for a (Loop.cursor st))) /\
    (forall c, dict_lookup d "cursor" = Some c -> last_cursor res = c).
Proof.
  intros T F P R k. eexists. split.
  - apply (fetch_ends_on_empty_page a w n st m w' resp d k T F P).
    unfold dict_get. now destruct R as [-> | ->].
  - cbn [envelope ended reviews last_cursor Loop.normalized_reviews Loop.cursor].
    unfold dict_get. split; [reflexivity|]. split.
    + intros ->. now rewrite cursor_of_request.
    + now intros c ->.
Qed.

Lemma fetch_nodup (fuel : nat) a w :
  NoDup (requested_cursors (snd (fst (fetch_all_steam_reviews_for_app fuel a w)))).
Proof.
  unfold fetch_all_steam_reviews_for_app.
  destruct (valid_page_size a); simpl; [|constructor].
  rewrite run_from_log. apply while_true_nodup, cursor_inv_init.
Qed.

Lemma at_top_cursor_inv a w n st m : at_top a w n st m -> cursor_inv st (snd m).
Proof.
  intros [_ P]. eapply passes_cursor_inv; [|exact P]. apply cursor_inv_init.
Qed.

(** C4: in one call no two requests carry the same cursor; and when the
    cursor held at the top of the loop is one already requested in this
    call, the call returns there and then, without another request, with
    the reviews collected so far. *)
Theorem no_cursor_is_requested_twice a w :
  (forall fuel,
     NoDup (requested_cursors
              (snd (fst (fetch_all_steam_reviews_for_app fuel a w))))) /\
  (forall n st m,
     at_top a w n st m ->
     In (Loop.cursor st) (requested_cursors (snd m)) ->
     forall k, exists res,
       fetch_all_steam_reviews_for_app (n + S k) a w = (m, Returned res) /\
       reviews res = Loop.normalized_reviews st /\
       last_cursor res = Loop.cursor st).
Proof.
  split; [intros fuel; apply fetch_nodup|].
  intros n st m T Hin k. eexists. split.
  - apply (fetch_breaks_at a w n st m m st k T).
    apply iteration_repeat.
    destruct (at_top_cursor_inv a w n st m T) as (R & _ & A).
    apply set_mem_seen; [exact A|]. rewrite R in Hin. now apply in_rev.
  - split; reflexivity.
Qed.


End PaginatorClaims.

(** ** The cap, on sequences of pages *)

(** C3 (amended): for every cap [C >= 0] and every sequence of
    successful pages, none of them empty, whose next cursors differ from
    one another and from the start cursor, whose records can all be
    taken into the output, and which hold [C] records or more between
    them, the call on the scripted session (whose delay returns at once)
    returns, given fuel for as many passes as pages, exactly [C] items,
    the first [C] of the sequence, and with [include_raw] exactly the
    first [C] raw records; the pages requested are those up to and
    including the first one with which the count reaches [C], and that
    page is requested whole before the cut. *)
Theorem cap_cuts_the_output_to_size (a : Args.t) (C : Z)
  (ps : list (list value * string)) (rest : script) (its : list item) (fuel : nat) :
  valid_page_size a = true ->
  Args.max_reviews a = Some C ->
  0 <= C ->
  Forall (fun p => fst p <> []) ps ->
  NoDup ("*" :: map snd ps) ->
  items_of a (records ps) = Ok its ->
  C <= Z.of_nat (length (records ps)) ->
  ps <> [] ->
  (length ps <= fuel)%nat ->
  exists k m res,
    fetch_all_steam_reviews_for_app fuel a (script_of ps ++ rest)%list
      = (m, Returned res) /\
    reviews res = firstn (Z.to_nat C) its /\
    count res = C /\
    raw_reviews res
      = (if Args.include_raw a then Some (firstn (Z.to_nat C) (records ps))
         else None) /\
    length (firstn (Z.to_nat C) (records ps)) = Z.to_nat C /\
    length (requested_cursors (snd m)) = k /\
    (1 <= k <= length ps)%nat /\
    C <= Z.of_nat (length (records (firstn k ps))) /\
    (forall j, (1 <= j < k)%nat -> Z.of_nat (length (records (firstn j ps))) < C).
Proof.
  intros V Hcap HC Hne Hnd Hits Htot Hps Hfuel.
  pose proof (items_of_length _ _ _ Hits) as L.
  destruct (capped_pages a C Hcap HC ps Loop.init rest [] "*" its fuel)
    as (k & m & st' & Hrun & Hn & Hr & Hq & Hk & Hge & Hlt); auto.
  - simpl. lia.
  - exists k, m, (envelope a st' (utc_now_iso (fst m))).
    unfold fetch_all_steam_reviews_for_app, run_from. rewrite V. cbn [negb].
    rewrite Hrun. split; [reflexivity|].
    cbn [envelope reviews count raw_reviews]. simpl in Hn, Hr, Hq, Hge, Hlt.
    rewrite Hn, Hr.
    split; [reflexivity|]. split; [rewrite length_firstn; lia|].
    split; [now destruct (Args.include_raw a)|].
    split; [rewrite length_firstn; lia|].
    split; [exact Hq|]. split; [exact Hk|]. split; [exact Hge|exact Hlt].
Qed.

Lemma cap_cuts_the_output_to_size_witness :
  exists m res,
    fetch_all_steam_reviews_for_app 3
      (Args.with_max_reviews 3 (Args.with_include_raw true (Args.default 413150)))
      (script_of [([sample_review; sample_review], "AB==");
                  ([sample_review; sample_review], "CD==");
                  ([sample_review], "EF==")] ++ [])%list
      = (m, Returned res) /\
    count res = 3 /\
    reviews res = [Normalized sample_normalized; Normalized sample_normalized;
                   Normalized sample_normalized] /\
    raw_reviews res = Some [sample_review; sample_review; sample_review].
Proof.
  edestruct (cap_cuts_the_output_to_size
               (Args.with_max_reviews 3 (Args.with_include_raw true (Args.default 413150)))
               3
               [([sample_review; sample_review], "AB==");
                ([sample_review; sample_review], "CD==");
                ([sample_review], "EF==")]
               []
               (map Normalized (repeat sample_normalized 5))
               3)
    as (k & m & res & Hrun & Hr & Hc & Hraw & _).
  - reflexivity.
  - reflexivity.
  - discriminate.
  - repeat constructor; discriminate.
  - repeat constructor; simpl; intuition discriminate.
  - reflexivity.
  - discriminate.
  - discriminate.
  - apply le_n.
  - exists m, res. split; [exact Hrun|]. split; [exact Hc|].
    split; [exact Hr|exact Hraw].
Defined.

(** C3 as stated fails: with cap 3, two records followed by an empty
    page end the call at 2 items though a later page holds more; so do
    two records that come with the start cursor again; and with cap -1 a
    page of two records is cut to one. *)
Lemma cap_is_not_always_the_size :
  (exists m res,
     fetch_all_steam_reviews_for_app 5
       (Args.with_max_reviews 3 (Args.default 413150))
       [Ok (page [sample_review; sample_review] "AB==");
        Ok (page [] "CD==");
        Ok (page [sample_review; sample_review] "EF==")]
       = (m, Returned res) /\ count res = 2) /\
  (exists m res,
     fetch_all_steam_reviews_for_app 5
       (Args.with_max_reviews 3 (Args.default 413150))
       [Ok (page [sample_review; sample_review] "*");
        Ok (page [sample_review; sample_review] "AB==")]
       = (m, Returned res) /\ count res = 2) /\
  (exists m res,
     fetch_all_steam_reviews_for_app 5
       (Args.with_max_reviews (-1) (Args.default 413150))
       [Ok (page [sample_review; sample_review] "AB==")]
       = (m, Returned res) /\ count res = 1).
Proof.
  repeat split; eexists; eexists; (split; [vm_compute; reflexivity|reflexivity]).
Qed.

(** ** Worked runs *)

Lemma page_size_checked_before_any_request_witness :
  fetch_all_steam_reviews_for_app 3
    (Args.with_num_per_page 0 (Args.default 413150))
    [Ok (page [sample_review] "AB==")]
    = (([Ok (page [sample_review] "AB==")], []),
       Raised (Exn ValueError (Some "num_per_page must be between 1 and 100"))) /\
  fetch_all_steam_reviews_for_app 3
    (Args.with_num_per_page 101 (Args.default 413150))
    [Ok (page [sample_review] "AB==")]
    = (([Ok (page [sample_review] "AB==")], []),
       Raised (Exn ValueError (Some "num_per_page must be between 1 and 100"))).
Proof.
  split.
  - apply (page_size_checked_before_any_request (E := scripted)). left. reflexivity.
  - apply (page_size_checked_before_any_request (E := scripted)). right. reflexivity.
Defined.

Lemma failures_reach_the_caller_witness :
  snd (fetch_all_steam_reviews_for_app 2 (Args.default 413150)
         [Ok (page [sample_review] "AB=="); Ok unavailable])
    = Raised (Exn SteamReviewsError (Some "HTTP 503: Service Unavailable")) /\
  snd (fetch_all_steam_reviews_for_app 1 (Args.default 413150) [Ok refused])
    = Raised (Exn SteamReviewsError
                (Some "Steam returned success=2: {'success': 2}")).
Proof.
  split.
  - edestruct (failures_reach_the_caller (E := scripted) (Args.default 413150)
                 [Ok (page [sample_review] "AB=="); Ok unavailable] 1)
      as (_ & _ & T & _).
    + split; reflexivity.
    + split; reflexivity.
    + exact (f_equal snd (T ltac:(discriminate) 0%nat)).
  - edestruct (failures_reach_the_caller (E := scripted) (Args.default 413150)
                 [Ok refused] 0)
      as (_ & _ & _ & T).
    + split; reflexivity.
    + split; reflexivity.
    + exact (f_equal snd (T [("success", PyInt 2)] eq_refl eq_refl eq_refl 0%nat)).
Defined.

(** The two-page scenario of the design document: two records with
    next cursor "AB==", then an empty page with the same cursor. *)
Lemma empty_page_ends_the_run_witness :
  exists m res,
    fetch_all_steam_reviews_for_app 2 (Args.default 413150)
      [Ok (page [sample_review; sample_review] "AB=="); Ok (page [] "AB==")]
      = (m, Returned res) /\
    count res = 2 /\ last_cursor res = PyStr "AB==".
Proof.
  edestruct (empty_page_ends_the_run (E := scripted) (Args.default 413150)
               [Ok (page [sample_review; sample_review] "AB=="); Ok (page [] "AB==")]
               1)
    as (res & Hrun & _ & Hc & _ & Hl).
  - split; reflexivity.
  - split; reflexivity.
  - apply page_payload.
  - reflexivity.
  - reflexivity.
  - eexists. exists res. split; [exact Hrun|]. split; [exact Hc|exact Hl].
Defined.

Lemma missing_reviews_read_as_empty_page_witness :
  exists m res,
    fetch_all_steam_reviews_for_app 2 (Args.default 413150)
      [Ok (page [sample_review] "AB=="); Ok bare]
      = (m, Returned res) /\
    length (reviews res) = 1%nat /\ last_cursor res = PyStr "AB==".
Proof.
  edestruct (missing_reviews_read_as_empty_page (E := scripted) (Args.default 413150)
               [Ok (page [sample_review] "AB=="); Ok bare] 1)
    as (res & Hrun & Hr & Hl & _).
  - split; reflexivity.
  - split; reflexivity.
  - repeat split.
  - left. reflexivity.
  - eexists. exists res. split; [exact Hrun|]. rewrite Hr.
    split; [reflexivity|]. exact (proj1 (Hl eq_refl)).
Defined.

Lemma no_cursor_is_requested_twice_witness :
  exists m res,
    fetch_all_steam_reviews_for_app 2 (Args.default 413150)
      [Ok (page [sample_review] "*"); Ok (page [sample_review] "AB==")]
      = (m, Returned res) /\
    length (reviews res) = 1%nat /\
    requested_cursors (snd m) = [PyStr "*"].
Proof.
  destruct (no_cursor_is_requested_twice (E := scripted) (Args.default 413150)
              [Ok (page [sample_review] "*"); Ok (page [sample_review] "AB==")])
    as (_ & T).
  edestruct (T 1%nat) as (res & Hrun & Hr & _).
  - split; reflexivity.
  - left. reflexivity.
  - eexists. exists res. split; [exact Hrun|]. rewrite Hr. split; reflexivity.
Defined.



(** * Further properties *)

(** ** Further properties of the paginator *)

Section PaginatorInversion.
Context {World : Type} {E : Env World}.
Implicit Types (a : Args.t) (st : Loop.locals) (m : @machine World) (w : World).

(** What a pass that does not raise has done. *)
Lemma iteration_ok_inv a st m m' (f : flow) :
  iteration a st m = (m', Ok f) ->
  (f = Break st /\ m' = m /\
   set_mem (Loop.cursor st) (Loop.seen_cursors st) = Ok true)
  \/ exists w' resp d,
       fetches a st m w' resp /\ payload resp d /\
       ((py_bool (dict_get d "reviews" PyNone) = false /\
         f = Break (ended st (dict_get d "cursor" (Loop.cursor st))) /\
         m' = fetched a st m w')
        \/ exists raw acc,
             py_bool (dict_get d "reviews" PyNone) = true /\
             extend_raw a (Loop.raw_reviews st) (dict_get d "reviews" PyNone) = Ok raw /\
             extend_normalized a (Loop.normalized_reviews st)
               (dict_get d "reviews" PyNone) = Ok acc /\
             ((exists cap,
                 cap_reached a acc = Some cap /\
                 f = Break {| Loop.cursor := dict_get d "cursor" (Loop.cursor st);
                              Loop.seen_cursors := Loop.cursor st :: Loop.seen_cursors st;
                              Loop.normalized_reviews := slice_to cap acc;
                              Loop.raw_reviews :=
                                if Args.include_raw a then slice_to cap raw else raw |} /\
                 m' = fetched a st m w')
              \/ (cap_reached a acc = None /\
                  f = Continue {| Loop.cursor := dict_get d "cursor" (Loop.cursor st);
                                  Loop.seen_cursors := Loop.cursor st :: Loop.seen_cursors st;
                                  Loop.normalized_reviews := acc;
                                  Loop.raw_reviews := raw |} /\
                  exists w'',
                    time_sleep w' (Args.sleep_seconds a) = (w'', Ok tt) /\
                    m' = (w'', (snd (fetched a st m w')
                                  ++ [EvSleep (Args.sleep_seconds a)])%list)))).
Proof.
  intros H.
  destruct (set_mem (Loop.cursor st) (Loop.seen_cursors st)) as [[|]|e] eqn:M.
  - rewrite iteration_repeat in H by assumption. injection H as <- <-. left. auto.
  - right.
    destruct (sess_get (fst m) (request_for a (Loop.cursor st))) as [w' [resp|e]] eqn:G.
    2:{ rewrite (iteration_get_raises a st m w' e) in H by assumption. discriminate H. }
    assert (F : fetches a st m w' resp) by (split; assumption).
    destruct (Z.eq_dec (status_code resp) 200) as [S|S].
    2:{ rewrite (iteration_bad_status a st m w' resp) in H by assumption.
        discriminate H. }
    destruct (json resp) as [data|e] eqn:J.
    2:{ rewrite (iteration_json_raises a st m w' resp e) in H by assumption.
        discriminate H. }
    destruct data as [| | | | |l|d].
    1-6: unfold iteration, io_bind, lift, http_get in H; rewrite M, G, S, J in H;
      discriminate H.
    destruct (scalar_eq (dict_get d "success" PyNone) (PyInt 1)) eqn:U.
    2:{ rewrite (iteration_upstream_failure a st m w' resp d) in H by assumption.
        discriminate H. }
    assert (P : payload resp d) by (repeat split; assumption).
    exists w', resp, d. split; [exact F|]. split; [exact P|].
    destruct (py_bool (dict_get d "reviews" PyNone)) eqn:R.
    2:{ rewrite (iteration_empty_page a st m w' resp d) in H by assumption.
        injection H as <- <-. left. auto. }
    right.
    destruct (extend_raw a (Loop.raw_reviews st) (dict_get d "reviews" PyNone))
      as [raw|e] eqn:X.
    2:{ unfold iteration, io_bind, lift, http_get in H. rewrite M, G, S, J in H.
        cbn [fst snd Z.eqb negb Pos.eqb py_get] in H. rewrite U in H.
        cbn [negb] in H. unfold py_or in H. rewrite R in H. cbv iota in H.
        rewrite R in H. cbn [negb] in H. rewrite X in H. discriminate H. }
    destruct (extend_normalized a (Loop.normalized_reviews st) (dict_get d "reviews" PyNone))
      as [acc|e] eqn:Y.
    2:{ unfold iteration, io_bind, lift, http_get in H. rewrite M, G, S, J in H.
        cbn [fst snd Z.eqb negb Pos.eqb py_get] in H. rewrite U in H.
        cbn [negb] in H. unfold py_or in H. rewrite R in H. cbv iota in H.
        rewrite R in H. cbn [negb] in H. rewrite X, Y in H. discriminate H. }
    exists raw, acc. repeat (split; [reflexivity|]).
    rewrite (iteration_page a st m w' resp d raw acc) in H by assumption.
    destruct (cap_reached a acc) as [cap|] eqn:Cap.
    { injection H as <- <-. left. exists cap. auto. }
    right. split; [reflexivity|].
    destruct (time_sleep w' (Args.sleep_seconds a)) as [w'' [[]|e]];
      [|discriminate H].
    injection H as <- <-. split; [reflexivity|]. exists w''. auto.
  - rewrite (iteration_unhashable a st m e) in H by assumption. discriminate H.
Qed.

(** An invariant of the locals holds of the locals a run returns with,
    once every pass that does not raise keeps it. *)
Lemma while_true_returned a (P : Loop.locals -> Prop) :
  (forall st m m' st', P st -> iteration a st m = (m', Ok (Continue st')) -> P st') ->
  (forall st m m' st', P st -> iteration a st m = (m', Ok (Break st')) -> P st') ->
  forall fuel st m m' st',
    P st -> while_true fuel a st m = (m', Returned st') -> P st'.
Proof.
  intros HC HB. induction fuel as [|fuel IH]; intros st m m' st' HP H; simpl in H.
  - discriminate H.
  - destruct (iteration a st m) as [m1 [[st1|st1]|e]] eqn:X.
    + injection H as <- <-. eapply HB; eauto.
    + eapply IH; [|exact H]. eapply HC; eauto.
    + discriminate H.
Qed.

Lemma fetch_returned a (P : Loop.locals -> Prop) :
  (forall st m m' st', P st -> iteration a st m = (m', Ok (Continue st')) -> P st') ->
  (forall st m m' st', P st -> iteration a st m = (m', Ok (Break st')) -> P st') ->
  P Loop.init ->
  forall fuel w m res,
    fetch_all_steam_reviews_for_app fuel a w = (m, Returned res) ->
    exists st', P st' /\ res = envelope a st' (utc_now_iso (fst m)).
Proof.
  intros HC HB HI fuel w m res H. unfold fetch_all_steam_reviews_for_app in H.
  destruct (valid_page_size a); [|discriminate H]. cbn [negb] in H.
  unfold run_from in H.
  destruct (while_true fuel a Loop.init (w, [])) as [m1 [st1|e|]] eqn:W;
    try discriminate H.
  injection H as <- <-. exists st1. split; [|reflexivity].
  eapply (while_true_returned a P HC HB); eauto.
Qed.
End PaginatorInversion.

(** ** The collections of a run *)

(** *** The output against the raw records *)

Lemma items_of_nil (a : Args.t) : items_of a [] = Ok [].
Proof. unfold items_of. now destruct (Args.normalize a). Qed.

Lemma items_of_join (a : Args.t) (l1 l2 : list value) (i1 i2 : list item) :
  items_of a l1 = Ok i1 -> items_of a l2 = Ok i2 ->
  items_of a (l1 ++ l2) = Ok (i1 ++ i2)%list.
Proof.
  unfold items_of. destruct (Args.normalize a).
  - rewrite map_result_app.
    destruct (map_result _normalize_review l1) as [n1|e]; [|discriminate]. simpl.
    destruct (map_result _normalize_review l2) as [n2|e]; [|discriminate]. simpl.
    intros H1 H2. injection H1 as <-. injection H2 as <-. now rewrite map_app.
  - intros H1 H2. injection H1 as <-. injection H2 as <-. now rewrite map_app.
Qed.

Lemma map_result_firstn {A B : Type} (f : A -> result B) (k : nat) (l : list A)
  (l' : list B) :
  map_result f l = Ok l' -> map_result f (firstn k l) = Ok (firstn k l').
Proof.
  revert l l'. induction k as [|k IH]; intros [|x l] l' H; simpl in *;
    try (injection H as <-); try reflexivity.
  destruct (f x) as [y|e]; [|discriminate]. simpl in *.
  destruct (map_result f l) as [ys|e] eqn:Hl; [|discriminate]. simpl in H.
  injection H as <-. simpl. now rewrite (IH l ys Hl).
Qed.

Lemma items_of_firstn (a : Args.t) (k : nat) (l : list value) (its : list item) :
  items_of a l = Ok its -> items_of a (firstn k l) = Ok (firstn k its).
Proof.
  unfold items_of. destruct (Args.normalize a).
  - destruct (map_result _normalize_review l) as [ns|e] eqn:H; [|discriminate].
    simpl. intros X. injection X as <-.
    rewrite (map_result_firstn _ k l ns H). simpl. now rewrite firstn_map.
  - intros X. injection X as <-. now rewrite firstn_map.
Qed.

Lemma items_of_slice (a : Args.t) (c : Z) (l : list value) (its : list item) :
  items_of a l = Ok its -> items_of a (slice_to c l) = Ok (slice_to c its).
Proof.
  intros H. unfold slice_to. rewrite (items_of_length a l its H).
  destruct (0 <=? c)%Z; now apply items_of_firstn.
Qed.

Lemma extend_normalized_inv (a : Args.t) (acc acc' : list item) (v : value) :
  extend_normalized a acc v = Ok acc' ->
  exists lp ip, py_iter v = Ok lp /\ items_of a lp = Ok ip /\ acc' = (acc ++ ip)%list.
Proof.
  unfold extend_normalized, items_of.
  destruct (py_iter v) as [lp|e]; [|discriminate]. simpl.
  destruct (Args.normalize a).
  - destruct (map_result _normalize_review lp) as [ns|e] eqn:Hn; [|discriminate].
    simpl. intros H. injection H as <-.
    exists lp, (map Normalized ns). rewrite Hn. auto.
  - intros H. injection H as <-. exists lp, (map AsIs lp). auto.
Qed.

Lemma extend_raw_inv (a : Args.t) (raw raw' : list value) (v : value) :
  extend_raw a raw v = Ok raw' ->
  if Args.include_raw a
  then exists lp, py_iter v = Ok lp /\ raw' = (raw ++ lp)%list
  else raw' = raw.
Proof.
  unfold extend_raw. destruct (Args.include_raw a).
  - destruct (py_iter v) as [lp|e]; [|discriminate]. simpl.
    intros H. injection H as <-. eauto.
  - intros H. now injection H as <-.
Qed.

Section Collected.
Context {World : Type} {E : Env World}.
Implicit Types (a : Args.t) (st : Loop.locals) (m : @machine World) (w : World).

Lemma collected_init a : collected a Loop.init.
Proof.
  split.
  - exists []. split; [apply items_of_nil|reflexivity].
  - intros cap _ H. simpl. exact H.
Qed.

Lemma collected_appended a st (v : value) (raw : list value) (acc : list item) :
  collected a st ->
  extend_raw a (Loop.raw_reviews st) v = Ok raw ->
  extend_normalized a (Loop.normalized_reviews st) v = Ok acc ->
  exists l, items_of a l = Ok acc /\ (Args.include_raw a = true -> raw = l).
Proof.
  intros [(l & Hl & Hr) _] X Y.
  apply extend_normalized_inv in Y as (lp & ip & Hp & Hi & ->).
  apply extend_raw_inv in X.
  exists (l ++ lp)%list. split; [now apply items_of_join|].
  intros Hir. rewrite Hir in X. destruct X as (lp' & Hp' & ->).
  rewrite Hp in Hp'. injection Hp' as <-. now rewrite Hr.
Qed.

Lemma collected_pass a st m m' (f : flow) :
  collected a st -> iteration a st m = (m', Ok f) ->
  collected a match f with Break st' => st' | Continue st' => st' end.
Proof.
  intros C H. destruct (iteration_ok_inv a st m m' f H)
    as [(-> & _)|(w' & resp & d & _ & _ &
                  [(_ & -> & _)|(raw & acc & _ & X & Y &
                                 [(cap & Cap & -> & _)|(Cap & -> & _)])])].
  - exact C.
  - exact C.
  - destruct (collected_appended a st _ raw acc C X Y) as (l & Hl & Hr).
    unfold cap_reached in Cap.
    destruct (Args.max_reviews a) as [c|] eqn:Hc; [|discriminate].
    destruct (c <=? Z.of_nat (length acc))%Z eqn:Hle; [|discriminate].
    injection Cap as <-. apply Z.leb_le in Hle.
    split; cbn [Loop.normalized_reviews Loop.raw_reviews].
    + exists (slice_to c l). split; [now apply items_of_slice|].
      intros Hir. rewrite Hir. now rewrite (Hr Hir).
    + intros cap Hcap Hpos. rewrite Hc in Hcap. injection Hcap as <-.
      unfold slice_to. apply Z.leb_le in Hpos. rewrite Hpos.
      rewrite length_firstn. lia.
  - destruct (collected_appended a st _ raw acc C X Y) as (l & Hl & Hr).
    split; cbn [Loop.normalized_reviews Loop.raw_reviews].
    + exists l. auto.
    + intros cap Hcap Hpos. unfold cap_reached in Cap. rewrite Hcap in Cap.
      destruct (cap <=? Z.of_nat (length acc))%Z eqn:Hle; [discriminate|].
      apply Z.leb_gt in Hle. lia.
Qed.

Lemma fetch_collected fuel a w m res :
  fetch_all_steam_reviews_for_app fuel a w = (m, Returned res) ->
  exists st, collected a st /\ res = envelope a st (utc_now_iso (fst m)).
Proof.
  apply (fetch_returned a (collected a)).
  - intros st m0 m' st' C H. exact (collected_pass a st m0 m' (Continue st') C H).
  - intros st m0 m' st' C H. exact (collected_pass a st m0 m' (Break st') C H).
  - apply collected_init.
Qed.

(** X2: with [include_raw], every call that returns gives a raw collection
    and an output collection that go item by item: without
    normalisation the output is the raw collection itself, with it each
    output item is the normalised form of the raw record at the same
    place. *)
Theorem output_goes_with_raw fuel a w m res :
  fetch_all_steam_reviews_for_app fuel a w = (m, Returned res) ->
  Args.include_raw a = true ->
  exists raw,
    raw_reviews res = Some raw /\
    length (reviews res) = length raw /\
    (Args.normalize a = false -> reviews res = map AsIs raw) /\
    (Args.normalize a = true ->
     exists ns, map_result _normalize_review raw = Ok ns /\
                reviews res = map Normalized ns).
Proof.
  intros H Hir. destruct (fetch_collected fuel a w m res H)
    as (st & [(l & Hl & Hr) _] & ->).
  cbn [envelope raw_reviews reviews]. rewrite Hir. exists (Loop.raw_reviews st).
  rewrite (Hr Hir). split; [reflexivity|].
  split; [now apply (items_of_length a)|]. unfold items_of in Hl. split.
  - intros Hn. rewrite Hn in Hl. now injection Hl as <-.
  - intros Hn. rewrite Hn in Hl.
    destruct (map_result _normalize_review l) as [ns|e]; [|discriminate].
    simpl in Hl. injection Hl as <-. eauto.
Qed.

(** X3: the output of a call that returns is of one kind throughout:
    normalised reviews when [normalize] is on, raw objects when it is
    off. *)
Theorem output_is_of_one_kind fuel a w m res :
  fetch_all_steam_reviews_for_app fuel a w = (m, Returned res) ->
  (Args.normalize a = true -> Forall is_normalized (reviews res)) /\
  (Args.normalize a = false -> Forall is_as_is (reviews res)).
Proof.
  intros H. destruct (fetch_collected fuel a w m res H)
    as (st & [(l & Hl & _) _] & ->).
  cbn [envelope reviews]. unfold items_of in Hl. split; intros Hn; rewrite Hn in Hl.
  - destruct (map_result _normalize_review l) as [ns|e]; [|discriminate].
    simpl in Hl. injection Hl as <-. apply Forall_forall. intros i Hi.
    apply in_map_iff in Hi as (n & <- & _). now exists n.
  - injection Hl as <-. apply Forall_forall. intros i Hi.
    apply in_map_iff in Hi as (v & <- & _). now exists v.
Qed.

(** X1: under a cap [C >= 0] no call returns more than [C] items, nor more
    than [C] raw records, whatever the session answers and however the
    loop is left. *)
Theorem cap_bounds_the_output fuel a w m res (C : Z) :
  fetch_all_steam_reviews_for_app fuel a w = (m, Returned res) ->
  Args.max_reviews a = Some C ->
  0 <= C ->
  count res <= C /\
  Z.of_nat (length (reviews res)) <= C /\
  forall raw, raw_reviews res = Some raw -> Z.of_nat (length raw) <= C.
Proof.
  intros H Hcap Hpos. destruct (fetch_collected fuel a w m res H)
    as (st & [(l & Hl & Hr) Hb] & ->).
  cbn [envelope count reviews raw_reviews]. specialize (Hb C Hcap Hpos).
  split; [exact Hb|]. split; [exact Hb|].
  intros raw. destruct (Args.include_raw a); [|discriminate].
  intros X. injection X as <-. rewrite (Hr eq_refl).
  rewrite <- (items_of_length a l _ Hl). exact Hb.
Qed.
End Collected.

(** ** Requests and exceptions *)

Lemma map_result_raises {A B : Type} (f : A -> result B) (l1 l2 : list A) (x : A)
  (e : exn) :
  Forall (fun y => exists z, f y = Ok z) l1 -> f x = Raise e ->
  map_result f (l1 ++ x :: l2) = Raise e.
Proof.
  intros H Hx. induction H as [|y l1 (z & Hz) _ IH]; simpl.
  - now rewrite Hx.
  - rewrite Hz. simpl. now rewrite IH.
Qed.

Section PaginatorEdges.
Context {World : Type} {E : Env World}.
Implicit Types (a : Args.t) (st : Loop.locals) (m : @machine World) (w : World).

(** *** What the requests carry *)

Lemma while_true_events fuel a st m :
  Forall (event_of a) (snd m) ->
  Forall (event_of a) (snd (fst (while_true fuel a st m))).
Proof.
  revert st m. induction fuel as [|fuel IH]; intros st m F; simpl; [exact F|].
  destruct (iteration a st m) as [m1 r] eqn:H.
  assert (F1 : Forall (event_of a) (snd m1)).
  { destruct (iteration_cases a st m m1 r H)
      as [(-> & _)|[(_ & -> & _)|(_ & -> & _)]]; [exact F| |];
      apply Forall_app; (split; [exact F|]); repeat constructor;
      simpl; now rewrite cursor_of_request. }
  destruct r as [[st1|st1]|e]; simpl; auto.
Qed.




(** *** Exceptions from the session, the decoder and the records *)

(** X6: an exception raised by the session's [get], or by the decoding of a
    body that came with status 200, reaches the caller as it is. *)
Theorem session_and_decoder_errors_propagate a w n st m w' :
  at_top a w n st m ->
  set_mem (Loop.cursor st) (Loop.seen_cursors st) = Ok false ->
  (forall e,
     sess_get (fst m) (request_for a (Loop.cursor st)) = (w', Raise e) ->
     forall k,
       fetch_all_steam_reviews_for_app (n + S k) a w
         = (fetched a st m w', Raised e)) /\
  (forall resp e,
     sess_get (fst m) (request_for a (Loop.cursor st)) = (w', Ok resp) ->
     status_code resp = 200 ->
     json resp = Raise e ->
     forall k,
       fetch_all_steam_reviews_for_app (n + S k) a w
         = (fetched a st m w', Raised e)).
Proof.
  intros T M. split.
  - intros e G k. apply (fetch_raises_at a w n st m); [exact T|].
    now apply iteration_get_raises.
  - intros resp e G S J k. apply (fetch_raises_at a w n st m); [exact T|].
    apply (iteration_json_raises a st m w' resp e); [split|..]; assumption.
Qed.

Lemma iteration_append_raises a st m w' resp (d : dict) (e : exn) :
  fetches a st m w' resp -> payload resp d ->
  py_bool (dict_get d "reviews" PyNone) = true ->
  (exists e', extend_raw a (Loop.raw_reviews st) (dict_get d "reviews" PyNone) = Raise e'
              /\ e = e')
  \/ (exists raw,
        extend_raw a (Loop.raw_reviews st) (dict_get d "reviews" PyNone) = Ok raw /\
        extend_normalized a (Loop.normalized_reviews st)
          (dict_get d "reviews" PyNone) = Raise e) ->
  iteration a st m = (fetched a st m w', Raise e).
Proof.
  intros [M G] (S & J & U) R X. unfold iteration, io_bind, lift, http_get.
  rewrite M, G, S, J. cbn [fst snd Z.eqb negb Pos.eqb py_get]. rewrite U.
  cbn [negb]. unfold py_or. rewrite R. cbv iota. rewrite R. cbn [negb].
  destruct X as [(e' & X & ->)|(raw & X & Y)].
  - now rewrite X.
  - now rewrite X, Y.
Qed.

(** X7: with normalisation on, a page in which some record cannot be
    normalised makes the whole call raise the exception of the first
    such record: nothing is returned, whatever was collected from the
    pages before. *)
Theorem unnormalisable_record_aborts_the_call a w n st m w' resp (d : dict)
  (l1 l2 : list value) (r : value) (e : exn) :
  at_top a w n st m ->
  fetches a st m w' resp ->
  payload resp d ->
  dict_lookup d "reviews" = Some (PyList (l1 ++ r :: l2)) ->
  Args.normalize a = true ->
  Forall (fun x => exists x', _normalize_review x = Ok x') l1 ->
  _normalize_review r = Raise e ->
  forall k,
    fetch_all_steam_reviews_for_app (n + S k) a w = (fetched a st m w', Raised e).
Proof.
  intros T F P L N H1 Hr k. apply (fetch_raises_at a w n st m); [exact T|].
  assert (G : dict_get d "reviews" PyNone = PyList (l1 ++ r :: l2))
    by (unfold dict_get; now rewrite L).
  apply (iteration_append_raises a st m w' resp d e F P).
  - rewrite G. now destruct l1.
  - right. rewrite G. exists (if Args.include_raw a
                               then (Loop.raw_reviews st ++ l1 ++ r :: l2)%list
                               else Loop.raw_reviews st).
    split.
    + unfold extend_raw. now destruct (Args.include_raw a).
    + unfold extend_normalized. cbn [py_iter bind]. rewrite N.
      now rewrite (map_result_raises _ l1 l2 r e H1 Hr).
Qed.

(** X8: a body that decodes to something other than an object makes the
    call raise [AttributeError]; a successful payload whose ["reviews"]
    is truthy but is no list, object or string makes it raise
    [TypeError]. *)
Theorem malformed_payloads_raise a w n st m w' resp :
  at_top a w n st m ->
  fetches a st m w' resp ->
  status_code resp = 200 ->
  (forall v,
     json resp = Ok v -> (forall d, v <> PyDict d) ->
     forall k,
       fetch_all_steam_reviews_for_app (n + S k) a w
         = (fetched a st m w', Raised (Exn AttributeError None))) /\
  (forall d v,
     payload resp d ->
     dict_lookup d "reviews" = Some v ->
     py_bool v = true ->
     (forall l, v <> PyList l) -> (forall d', v <> PyDict d') ->
     (forall s, v <> PyStr s) ->
     forall k,
       fetch_all_steam_reviews_for_app (n + S k) a w
         = (fetched a st m w', Raised (Exn TypeError None))).
Proof.
  intros T F S. split.
  - intros v J N k. apply (fetch_raises_at a w n st m); [exact T|].
    destruct F as [M G]. unfold iteration, io_bind, lift, http_get.
    rewrite M, G, S, J.
    destruct v as [| | | | |l|d]; try reflexivity. now destruct (N d).
  - intros d v P L B N1 N2 N3 k. apply (fetch_raises_at a w n st m); [exact T|].
    assert (G : dict_get d "reviews" PyNone = v) by (unfold dict_get; now rewrite L).
    assert (I : py_iter v = builtin_error TypeError).
    { destruct v as [| | | |s|l|d']; try reflexivity;
        [now destruct (N3 s)|now destruct (N1 l)|now destruct (N2 d')]. }
    apply (iteration_append_raises a st m w' resp d _ F P); rewrite G; [exact B|].
    unfold extend_raw, extend_normalized. rewrite I.
    destruct (Args.include_raw a).
    + left. eexists. split; reflexivity.
    + right. eexists. split; reflexivity.
Qed.

(** *** A negative cap *)

(** X10: with a cap below zero the first page that is not empty ends the
    call: it is appended whole and the output is then cut by [-C] items
    from the end. *)
Theorem negative_cap_cuts_from_the_end a w w' resp (d : dict) (l : list value)
  (its : list item) (C : Z) :
  valid_page_size a = true ->
  sess_get w (request_for a (PyStr "*")) = (w', Ok resp) ->
  payload resp d ->
  dict_lookup d "reviews" = Some (PyList l) ->
  l <> [] ->
  items_of a l = Ok its ->
  Args.max_reviews a = Some C ->
  C < 0 ->
  forall k, exists res,
    fetch_all_steam_reviews_for_app (S k) a w
      = ((w', [EvGet (request_for a (PyStr "*"))]), Returned res) /\
    reviews res = firstn (length its - Z.to_nat (- C)) its /\
    raw_reviews res
      = (if Args.include_raw a then Some (firstn (length l - Z.to_nat (- C)) l)
         else None).
Proof.
  intros V G P L Hl Hi Hc Hneg k.
  assert (R : dict_get d "reviews" PyNone = PyList l)
    by (unfold dict_get; now rewrite L).
  assert (F : fetches a Loop.init (w, []) w' resp) by (split; [reflexivity|exact G]).
  pose proof (iteration_page a Loop.init (w, []) w' resp d
                (if Args.include_raw a then l else []) its F P) as I.
  rewrite R in I. specialize (I ltac:(now destruct l)).
  specialize (I ltac:(unfold extend_raw; now destruct (Args.include_raw a))).
  specialize (I ltac:(unfold extend_normalized, items_of in *; simpl;
                      destruct (Args.normalize a);
                      [destruct (map_result _normalize_review l); [|discriminate];
                       simpl in *; now injection Hi as <-
                      |now injection Hi as <-])).
  unfold cap_reached in I. rewrite Hc in I.
  assert (Hle : (C <=? Z.of_nat (length its))%Z = true) by (apply Z.leb_le; lia).
  rewrite Hle in I.
  eexists. split.
  - unfold fetch_all_steam_reviews_for_app. rewrite V. cbn [negb].
    apply run_from_break. exact I.
  - cbn [envelope reviews raw_reviews Loop.normalized_reviews Loop.raw_reviews].
    unfold slice_to. assert (Hn : (0 <=? C)%Z = false) by (apply Z.leb_gt; lia).
    rewrite Hn. split; [reflexivity|]. now destruct (Args.include_raw a).
Qed.
End PaginatorEdges.

(** *** Termination on a server with finitely many cursors *)

Section FiniteCursors.
Context {World : Type} {E : Env World}.
Implicit Types (a : Args.t) (st : Loop.locals) (m : @machine World) (w : World).

Variable known : list value.

(** Every cursor the session ever sends is one of [known]. *)
Hypothesis cursors_known :
  forall w rq w' resp d c,
    sess_get w rq = (w', Ok resp) ->
    json resp = Ok (PyDict d) ->
    dict_lookup d "cursor" = Some c ->
    In c known.

Lemma bounded_init : bounded known Loop.init.
Proof.
  repeat split; [constructor|intros x []|now left].
Qed.

Lemma bounded_continue a st m m' st' :
  bounded known st -> iteration a st m = (m', Ok (Continue st')) ->
  bounded known st' /\ length (Loop.seen_cursors st') = S (length (Loop.seen_cursors st)).
Proof.
  intros (N & I & C) H.
  destruct (iteration_ok_inv a st m m' _ H)
    as [(X & _)|(w' & resp & d & [M G] & (_ & J & _) &
                 [(_ & X & _)|(raw & acc & _ & _ & _ &
                               [(cap & _ & X & _)|(_ & X & _)])])];
    try discriminate X.
  injection X as ->. cbn [Loop.seen_cursors Loop.cursor]. split; [|reflexivity].
  apply set_mem_fresh in M as [_ M]. repeat split.
  - now constructor.
  - intros x [<-|Hx]; auto.
  - unfold dict_get. destruct (dict_lookup d "cursor") as [c|] eqn:L; [|exact C].
    right. eapply cursors_known; eauto.
Qed.

Lemma while_true_ends fuel a st m :
  bounded known st ->
  (length (PyStr "*" :: known) < length (Loop.seen_cursors st) + fuel)%nat ->
  snd (while_true fuel a st m) <> OutOfFuel.
Proof.
  revert st m. induction fuel as [|fuel IH]; intros st m B L; simpl.
  - destruct B as (N & I & _). pose proof (NoDup_incl_length N I). lia.
  - destruct (iteration a st m) as [m1 [[st1|st1]|e]] eqn:H; simpl; try discriminate.
    destruct (bounded_continue a st m m1 st1 B H) as [B1 L1].
    apply IH; [exact B1|]. rewrite L1. lia.
Qed.

Lemma while_true_requests_known fuel a st m :
  bounded known st ->
  incl (requested_cursors (snd m)) (PyStr "*" :: known) ->
  incl (requested_cursors (snd (fst (while_true fuel a st m)))) (PyStr "*" :: known).
Proof.
  revert st m. induction fuel as [|fuel IH]; intros st m B I; simpl; [exact I|].
  destruct (iteration a st m) as [m1 r] eqn:H.
  assert (I1 : incl (requested_cursors (snd m1)) (PyStr "*" :: known)).
  { destruct B as (_ & _ & C).
    destruct (iteration_cases a st m m1 r H)
      as [(-> & _)|[(_ & -> & _)|(_ & -> & _)]]; [exact I| |];
      rewrite requested_cursors_app; apply incl_app; try exact I;
      simpl; rewrite cursor_of_request; intros x [<-|[]]; exact C. }
  destruct r as [[st1|st1]|e]; simpl; auto.
  apply IH; [|exact I1]. eapply bounded_continue; eauto.
Qed.

(** X9: when all the cursors a session can send lie in a finite list, the
    call ends, by returning or by raising, within two passes more than
    the list is long, and makes at most one request more than the list
    is long. *)
Theorem finitely_many_cursors_end_the_call fuel a w :
  (length known + 2 <= fuel)%nat ->
  snd (fetch_all_steam_reviews_for_app fuel a w) <> OutOfFuel /\
  (length (requested_cursors (snd (fst (fetch_all_steam_reviews_for_app fuel a w))))
   <= length known + 1)%nat.
Proof.
  intros L. split.
  - unfold fetch_all_steam_reviews_for_app.
    destruct (valid_page_size a); cbn [negb]; [|discriminate].
    unfold run_from.
    pose proof (while_true_ends fuel a Loop.init (w, []) bounded_init) as T.
    destruct (while_true fuel a Loop.init (w, [])) as [m1 [st1|e|]];
      try discriminate.
    exfalso. apply T; [simpl; lia|reflexivity].
  - assert (I : incl (requested_cursors
                        (snd (fst (fetch_all_steam_reviews_for_app fuel a w))))
                     (PyStr "*" :: known)).
    { unfold fetch_all_steam_reviews_for_app.
      destruct (valid_page_size a); cbn [negb]; [|intros x []].
      rewrite run_from_log. apply while_true_requests_known;
        [apply bounded_init|intros x []]. }
    pose proof (NoDup_incl_length (fetch_nodup fuel a w) I) as X. simpl in X. lia.
Qed.
End FiniteCursors.

Lemma finitely_many_cursors_end_the_call_witness :
  snd (fetch_all_steam_reviews_for_app (E := repeating) 3 (Args.default 413150) tt)
    <> OutOfFuel.
Proof.
  refine (proj1 (finitely_many_cursors_end_the_call (E := repeating)
                   [PyStr "AB=="] _ 3 (Args.default 413150) tt _)).
  - intros w rq w' resp d c G J L. simpl in G. injection G as _ <-.
    simpl in J. injection J as <-. simpl in L. injection L as <-. now left.
  - apply le_n.
Defined.

(** *** A whole sequence of pages, without a cap *)

Lemma all_pages (a : Args.t) :
  Args.max_reviews a = None ->
  forall (ps : list (list value * string)) (st : Loop.locals) (rest : script)
         (log : list event) (c last : string) (its : list item) (fuel : nat),
  Loop.cursor st = PyStr c ->
  Forall (fun p => fst p <> []) ps ->
  NoDup (c :: map snd ps) ->
  (forall s, In s (c :: map snd ps) -> ~ In (PyStr s) (Loop.seen_cursors st)) ->
  items_of a (records ps) = Ok its ->
  (length ps < fuel)%nat ->
  exists log' st',
    while_true fuel a st ((script_of ps ++ Ok (page [] last) :: rest)%list, log)
      = ((rest, log'), Returned st') /\
    Loop.normalized_reviews st' = (Loop.normalized_reviews st ++ its)%list /\
    Loop.raw_reviews st'
      = (if Args.include_raw a then (Loop.raw_reviews st ++ records ps)%list
         else Loop.raw_reviews st) /\
    Loop.cursor st' = PyStr last /\
    requested_cursors log'
      = (requested_cursors log ++ map PyStr (c :: map snd ps))%list.
Proof.
  intros Hcap.
  induction ps as [|[revs next] ps IH];
    intros st rest log c last its fuel Hc Hne Hnd Hfresh Hits Hfuel;
    (destruct fuel as [|fuel]; [simpl in Hfuel; lia|]).
  - assert (Hfc : ~ In (PyStr c) (Loop.seen_cursors st)) by (apply Hfresh; now left).
    cbn [script_of map app while_true].
    assert (F : fetches a st (Ok (page [] last) :: rest, log) rest (page [] last)).
    { split; [rewrite Hc; now apply set_mem_str_fresh|reflexivity]. }
    rewrite (iteration_empty_page a st _ rest (page [] last) _ F
               (page_payload [] last) eq_refl).
    unfold items_of in Hits. simpl in Hits.
    assert (its = []) as -> by (destruct (Args.normalize a); now injection Hits as <-).
    eexists. eexists. split; [reflexivity|].
    cbn [ended Loop.normalized_reviews Loop.raw_reviews Loop.cursor fetched snd].
    rewrite !app_nil_r. repeat split.
    + now destruct (Args.include_raw a).
    + rewrite requested_cursors_app, Hc. reflexivity.
  - rewrite records_cons in Hits. cbn [fst] in Hits.
    apply items_of_app in Hits as (i1 & i2 & Hi1 & Hi2 & ->).
    inversion Hne as [|? ? Hrevs Hne']; subst. cbn [fst] in Hrevs.
    assert (Hfc : ~ In (PyStr c) (Loop.seen_cursors st)) by (apply Hfresh; now left).
    cbn [script_of map app fst snd while_true].
    rewrite (scripted_pass a st revs next _ log c i1 Hc Hfc Hrevs Hi1).
    unfold cap_reached. rewrite Hcap.
    inversion Hnd as [|? ? Hc1 Hnd1]; subst. cbn [map snd] in *.
    destruct (IH {| Loop.cursor := PyStr next;
                    Loop.seen_cursors := PyStr c :: Loop.seen_cursors st;
                    Loop.normalized_reviews := (Loop.normalized_reviews st ++ i1)%list;
                    Loop.raw_reviews :=
                      if Args.include_raw a then (Loop.raw_reviews st ++ revs)%list
                      else Loop.raw_reviews st |}
                 rest
                 ((log ++ [EvGet (request_for a (PyStr c))]) ++
                    [EvSleep (Args.sleep_seconds a)])%list
                 next last i2 fuel)
      as (log' & st' & Hrun & Hn & Hr & Hl & Hq).
    + reflexivity.
    + assumption.
    + assumption.
    + cbn [Loop.seen_cursors]. intros s Hs [Heq|Hin].
      * injection Heq as ->. apply Hc1. exact Hs.
      * apply (Hfresh s); [right; exact Hs|exact Hin].
    + assumption.
    + simpl in Hfuel. lia.
    + cbn [Loop.normalized_reviews Loop.raw_reviews] in *.
      exists log', st'. split; [exact Hrun|]. repeat split.
      * rewrite Hn. now rewrite <- app_assoc.
      * rewrite Hr. destruct (Args.include_raw a); [|reflexivity].
        rewrite records_cons. cbn [fst]. now rewrite <- app_assoc.
      * exact Hl.
      * rewrite Hq. rewrite !requested_cursors_app. simpl.
        rewrite cursor_of_request, app_nil_r, <- app_assoc. reflexivity.
Qed.

(** X5: without a cap, a sequence of successful pages, none empty, with
    next cursors that differ from one another and from the start
    cursor, followed by an empty page, is collected whole: the call
    returns every record in order, the raw records too with
    [include_raw], and the cursor of the empty page as [last_cursor]; it
    asks for the start cursor and then for the cursor of each page in
    turn, and takes no answer beyond the empty page. *)
Theorem all_pages_are_collected (a : Args.t) (ps : list (list value * string))
  (last : string) (rest : script) (its : list item) (fuel : nat) :
  valid_page_size a = true ->
  Args.max_reviews a = None ->
  Forall (fun p => fst p <> []) ps ->
  NoDup ("*" :: map snd ps) ->
  items_of a (records ps) = Ok its ->
  (length ps < fuel)%nat ->
  exists log res,
    fetch_all_steam_reviews_for_app fuel a
      (script_of ps ++ Ok (page [] last) :: rest)%list
      = ((rest, log), Returned res) /\
    reviews res = its /\
    count res = Z.of_nat (length (records ps)) /\
    raw_reviews res = (if Args.include_raw a then Some (records ps) else None) /\
    last_cursor res = PyStr last /\
    requested_cursors log = map PyStr ("*" :: map snd ps).
Proof.
  intros V Hcap Hne Hnd Hits Hfuel.
  destruct (all_pages a Hcap ps Loop.init rest [] "*" last its fuel)
    as (log & st' & Hrun & Hn & Hr & Hl & Hq); auto.
  exists log, (envelope a st' (utc_now_iso rest)).
  unfold fetch_all_steam_reviews_for_app, run_from. rewrite V. cbn [negb].
  rewrite Hrun. split; [reflexivity|].
  cbn [envelope reviews count raw_reviews last_cursor]. simpl in Hn, Hr, Hq.
  rewrite Hn, Hr, Hl, (items_of_length a _ _ Hits).
  repeat split; try assumption. now destruct (Args.include_raw a).
Qed.

Lemma all_pages_are_collected_witness :
  exists log res,
    fetch_all_steam_reviews_for_app 3 (Args.default 413150)
      (script_of [([sample_review; sample_review], "AB==");
                  ([sample_review], "CD==")]
         ++ Ok (page [] "CD==") :: [])%list
      = (([], log), Returned res) /\
    count res = 3 /\ last_cursor res = PyStr "CD==" /\
    requested_cursors log = [PyStr "*"; PyStr "AB=="; PyStr "CD=="].
Proof.
  edestruct (all_pages_are_collected (Args.default 413150)
               [([sample_review; sample_review], "AB==");
                ([sample_review], "CD==")]
               "CD==" [] (map Normalized (repeat sample_normalized 3)) 3)
    as (log & res & Hrun & _ & Hc & _ & Hl & Hq).
  - reflexivity.
  - reflexivity.
  - repeat constructor; discriminate.
  - repeat constructor; simpl; intuition discriminate.
  - reflexivity.
  - apply le_n.
  - exists log, res. split; [exact Hrun|]. split; [exact Hc|].
    split; [exact Hl|exact Hq].
Defined.

(** ** Further properties of the normaliser *)

(** X11: two records that hold the same under each key that is read are
    normalised alike: the order of the keys and any other key are of no
    account. *)
Theorem only_the_read_keys_matter (d d' : dict) :
  (forall k, In k top_keys -> dict_lookup d k = dict_lookup d' k) ->
  _normalize_review (PyDict d) = _normalize_review (PyDict d').
Proof.
  intros H.
  assert (G : forall k dflt, In k top_keys -> dict_get d k dflt = dict_get d' k dflt).
  { intros k dflt Hk. unfold dict_get. now rewrite (H k Hk). }
  unfold _normalize_review, author_of, str_field, int_field, bool_field, raw_field.
  cbn [py_get].
  rewrite !(G "author"), !(G "recommendationid"), !(G "language"), !(G "review"),
    !(G "voted_up"), !(G "timestamp_created"), !(G "timestamp_updated"),
    !(G "votes_up"), !(G "votes_funny"), !(G "weighted_vote_score"),
    !(G "comment_count"), !(G "steam_purchase"), !(G "received_for_free"),
    !(G "written_during_early_access") by (simpl; tauto).
  reflexivity.
Qed.

Lemma only_the_read_keys_matter_witness :
  _normalize_review (PyDict (("primarily_steam_deck", PyBool false) :: sample_fields))
    = _normalize_review (PyDict (rev sample_fields)).
Proof.
  apply only_the_read_keys_matter. intros k Hk. simpl in Hk.
  repeat (destruct Hk as [<-|Hk]; [reflexivity|]). contradiction.
Defined.

(** ** The main block *)

Section MainFacts.
Context {World : Type} {E : Env World} {H : Host World}.
Implicit Types (ns : Namespace.t) (w : World).

(** X13: whenever the main block runs to its end it has saved one dataset
    and printed one line, in that order: the dataset is the one fetched
    for the app asked for, saved at the path given with [--out] or, when
    that is absent or empty, at [steam_reviews_<appid>.json]; the line
    names that path and the number of reviews in the dataset; and with a
    [--max-reviews] that is not negative, as the default 1000, the
    dataset holds no more reviews than that. *)
Theorem main_saves_within_the_cap fuel ns w m (outs : list output) :
  main fuel ns w = ((m, outs), Returned tt) ->
  exists data,
    outs = [Saved (out_file ns) data;
            Printed ("Saved " ++ decimal (Z.of_nat (length (reviews data)))
                       ++ " reviews to " ++ out_file ns)] /\
    appid data = Namespace.appid ns /\
    (Namespace.out ns = None \/ Namespace.out ns = Some "" ->
     out_file ns = "steam_reviews_" ++ decimal (Namespace.appid ns) ++ ".json") /\
    (forall path, Namespace.out ns = Some path -> path <> "" -> out_file ns = path) /\
    (0 <= Namespace.max_reviews ns ->
     Z.of_nat (length (reviews data)) <= Namespace.max_reviews ns).
Proof.
  unfold main, save_reviews_json. intros M.
  destruct (fetch_all_steam_reviews_for_app fuel (fetch_args ns) w)
    as [m0 [data|e|]] eqn:F; try discriminate M.
  destruct (dump_json (fst m0) (out_file ns) data) as [w1 [[]|e]];
    try discriminate M.
  injection M as <- <-. exists data.
  destruct (fetch_collected fuel (fetch_args ns) w m0 data F) as (st & C & ->).
  cbn [envelope count reviews appid fetch_args Args.appid].
  split; [reflexivity|]. split; [reflexivity|]. split; [|split].
  - unfold out_file. intros [Hp|Hp]; now rewrite Hp.
  - intros path Hp N. unfold out_file. rewrite Hp.
    apply String.eqb_neq in N. now rewrite N.
  - intros P. destruct C as [_ B]. apply (B (Namespace.max_reviews ns)); auto.
Qed.

(** X14: when the fetch raises, the main block raises the same exception
    and neither saves nor prints; and with a [--num-per-page] outside
    1..100 that happens before any request is made. *)
Theorem main_saves_nothing_on_failure fuel ns w :
  (forall m e,
     fetch_all_steam_reviews_for_app fuel (fetch_args ns) w = (m, Raised e) ->
     main fuel ns w = ((m, []), Raised e)) /\
  (Namespace.num_per_page ns < 1 \/ 100 < Namespace.num_per_page ns ->
   main fuel ns w
     = (((w, []), []),
        Raised (Exn ValueError (Some "num_per_page must be between 1 and 100")))).
Proof.
  split.
  - intros m e F. unfold main. now rewrite F.
  - intros B. unfold main, fetch_all_steam_reviews_for_app, valid_page_size.
    cbn [fetch_args Args.num_per_page].
    destruct (1 <=? Namespace.num_per_page ns)%Z eqn:L;
      destruct (Namespace.num_per_page ns <=? 100)%Z eqn:U; try reflexivity.
    apply Z.leb_le in L, U. lia.
Qed.
End MainFacts.

(** *** The dataset and the requests behind it *)

Lemma items_of_kind (a : Args.t) (l : list value) (its : list item) :
  items_of a l = Ok its ->
  if Args.normalize a then Forall is_normalized its else Forall is_as_is its.
Proof.
  unfold items_of. destruct (Args.normalize a).
  - destruct (map_result _normalize_review l) as [ns|e]; [|discriminate].
    simpl. intros X. injection X as <-. apply Forall_forall. intros i Hi.
    apply in_map_iff in Hi as (n & <- & _). now exists n.
  - intros X. injection X as <-. apply Forall_forall. intros i Hi.
    apply in_map_iff in Hi as (v & <- & _). now exists v.
Qed.

Section Datasets.
Context {World : Type} {E : Env World}.
Implicit Types (a : Args.t) (st : Loop.locals) (m : @machine World) (w : World).

Lemma fetch_events fuel a w :
  Forall (event_of a) (snd (fst (fetch_all_steam_reviews_for_app fuel a w))).
Proof.
  unfold fetch_all_steam_reviews_for_app.
  destruct (valid_page_size a); cbn [negb]; [|constructor].
  rewrite run_from_log. apply while_true_events. constructor.
Qed.

(** X15: a dataset that is returned tells the truth about the call behind
    it: its [count] is the number of its reviews, the page size it
    records lies between 1 and 100, it has raw reviews exactly when
    they were asked for, its time stamp is read once the last request
    and delay are over, and every request that was made went to the
    address of the app it names and carried the request parameters it
    records. *)
Theorem dataset_records_the_requests fuel a w m res :
  fetch_all_steam_reviews_for_app fuel a w = (m, Returned res) ->
  count res = Z.of_nat (length (reviews res)) /\
  1 <= rp_num_per_page (request_params res) <= 100 /\
  (raw_reviews res = None <-> Args.include_raw a = false) /\
  fetched_at_utc res = utc_now_iso (fst m) /\
  forall rq, In (EvGet rq) (snd m) ->
    url rq = STEAM_REVIEWS_URL (appid res) /\ recorded (request_params res) rq.
Proof.
  intros H. pose proof (fetch_events fuel a w) as F. rewrite H in F. simpl in F.
  unfold fetch_all_steam_reviews_for_app in H.
  destruct (valid_page_size a) eqn:V; [|discriminate H]. cbn [negb] in H.
  unfold run_from in H.
  destruct (while_true fuel a Loop.init (w, [])) as [m1 [st1|e|]];
    try discriminate H.
  injection H as <- <-. cbn [envelope count reviews request_params rp_num_per_page
                             raw_reviews fetched_at_utc appid].
  split; [reflexivity|]. split.
  { unfold valid_page_size in V. apply andb_true_iff in V as [L U].
    apply Z.leb_le in L, U. lia. }
  split; [destruct (Args.include_raw a); split; congruence|].
  split; [reflexivity|]. intros rq Hrq.
  rewrite Forall_forall in F. specialize (F _ Hrq). simpl in F. rewrite F.
  split; [reflexivity|]. repeat split.
Qed.
End Datasets.

Section MainFlags.
Context {World : Type} {E : Env World} {H : Host World}.
Implicit Types (ns : Namespace.t) (w : World).

(** X16: the two flags of the command line decide what is saved: with
    [--no-normalize] the reviews of the saved dataset are the raw
    objects, without it they are normalised reviews; and the dataset
    has raw reviews beside them exactly with [--include-raw]. *)
Theorem main_flags_select_the_output fuel ns w m (outs : list output) :
  main fuel ns w = ((m, outs), Returned tt) ->
  exists data line,
    outs = [Saved (out_file ns) data; Printed line] /\
    (if Namespace.no_normalize ns then Forall is_as_is (reviews data)
     else Forall is_normalized (reviews data)) /\
    (if Namespace.include_raw ns
     then exists raw, raw_reviews data = Some raw /\
                      length raw = length (reviews data)
     else raw_reviews data = None).
Proof.
  unfold main, save_reviews_json. intros M.
  destruct (fetch_all_steam_reviews_for_app fuel (fetch_args ns) w)
    as [m0 [data|e|]] eqn:F; try discriminate M.
  destruct (dump_json (fst m0) (out_file ns) data) as [w1 [[]|e]];
    try discriminate M.
  injection M as <- <-. exists data. eexists. split; [reflexivity|].
  destruct (fetch_collected fuel (fetch_args ns) w m0 data F)
    as (st & [(l & Hl & Hr) _] & ->).
  cbn [envelope reviews raw_reviews fetch_args Args.include_raw]. split.
  - pose proof (items_of_kind _ _ _ Hl) as K.
    cbn [fetch_args Args.normalize] in K.
    now destruct (Namespace.no_normalize ns).
  - destruct (Namespace.include_raw ns) eqn:R; [|reflexivity].
    exists (Loop.raw_reviews st). split; [reflexivity|].
    rewrite (Hr R). symmetry. now apply (items_of_length (fetch_args ns)).
Qed.
End MainFlags.


(** ** Worked runs for the further properties *)

Lemma output_goes_with_raw_witness :
  exists m res raw,
    fetch_all_steam_reviews_for_app 2
      (Args.with_include_raw true (Args.default 413150))
      [Ok (page [sample_review; sample_review] "AB=="); Ok (page [] "AB==")]
      = (m, Returned res) /\
    raw_reviews res = Some raw /\
    length (reviews res) = length raw.
Proof.
  eassert (F : fetch_all_steam_reviews_for_app 2
                 (Args.with_include_raw true (Args.default 413150))
                 [Ok (page [sample_review; sample_review] "AB==");
                  Ok (page [] "AB==")]
               = (_, Returned _)) by (vm_compute; reflexivity).
  destruct (output_goes_with_raw _ _ _ _ _ F eq_refl) as (raw & Hr & Hl & _).
  eexists. eexists. exists raw. split; [exact F|]. split; [exact Hr|exact Hl].
Defined.

Lemma output_is_of_one_kind_witness :
  exists m res,
    fetch_all_steam_reviews_for_app 2 (Args.default 413150)
      [Ok (page [sample_review; sample_review] "AB=="); Ok (page [] "AB==")]
      = (m, Returned res) /\
    Forall is_normalized (reviews res).
Proof.
  eassert (F : fetch_all_steam_reviews_for_app 2 (Args.default 413150)
                 [Ok (page [sample_review; sample_review] "AB==");
                  Ok (page [] "AB==")]
               = (_, Returned _)) by (vm_compute; reflexivity).
  eexists. eexists. split; [exact F|].
  exact (proj1 (output_is_of_one_kind _ _ _ _ _ F) eq_refl).
Defined.

Lemma cap_bounds_the_output_witness :
  exists m res,
    fetch_all_steam_reviews_for_app 2
      (Args.with_max_reviews 1 (Args.default 413150))
      [Ok (page [sample_review; sample_review] "AB==")]
      = (m, Returned res) /\
    count res <= 1.
Proof.
  eassert (F : fetch_all_steam_reviews_for_app 2
                 (Args.with_max_reviews 1 (Args.default 413150))
                 [Ok (page [sample_review; sample_review] "AB==")]
               = (_, Returned _)) by (vm_compute; reflexivity).
  eexists. eexists. split; [exact F|].
  refine (proj1 (cap_bounds_the_output _ _ _ _ _ 1 F eq_refl _)). discriminate.
Defined.


Lemma session_and_decoder_errors_propagate_witness :
  snd (fetch_all_steam_reviews_for_app 1 (Args.default 413150)
         [Raise (Exn (OtherError "ConnectionError") None)])
    = Raised (Exn (OtherError "ConnectionError") None) /\
  snd (fetch_all_steam_reviews_for_app 1 (Args.default 413150)
         [Ok {| status_code := 200; text := "<html>";
                json := Raise (Exn (OtherError "JSONDecodeError") None) |}])
    = Raised (Exn (OtherError "JSONDecodeError") None).
Proof.
  split.
  - edestruct (session_and_decoder_errors_propagate (E := scripted)
                 (Args.default 413150)
                 [Raise (Exn (OtherError "ConnectionError") None)] 0)
      as (T & _).
    + split; reflexivity.
    + reflexivity.
    + exact (f_equal snd (T _ eq_refl 0%nat)).
  - edestruct (session_and_decoder_errors_propagate (E := scripted)
                 (Args.default 413150)
                 [Ok {| status_code := 200; text := "<html>";
                        json := Raise (Exn (OtherError "JSONDecodeError") None) |}] 0)
      as (_ & T).
    + split; reflexivity.
    + reflexivity.
    + exact (f_equal snd (T _ _ eq_refl eq_refl eq_refl 0%nat)).
Defined.

Lemma unnormalisable_record_aborts_the_call_witness :
  snd (fetch_all_steam_reviews_for_app 2 (Args.default 413150)
         [Ok (page [sample_review] "AB==");
          Ok (page [sample_review; PyDict [("votes_up", PyStr "many")]] "CD==")])
    = Raised (Exn ValueError None).
Proof.
  refine (f_equal snd
            (unnormalisable_record_aborts_the_call (E := scripted)
               (Args.default 413150)
               [Ok (page [sample_review] "AB==");
                Ok (page [sample_review; PyDict [("votes_up", PyStr "many")]] "CD==")]
               1 _ _ _ _ _ [sample_review] [] (PyDict [("votes_up", PyStr "many")])
               (Exn ValueError None) _ _ _ _ _ _ _ 0%nat)).
  - split; reflexivity.
  - split; reflexivity.
  - apply page_payload.
  - reflexivity.
  - reflexivity.
  - repeat constructor. eexists. reflexivity.
  - reflexivity.
Defined.

Lemma malformed_payloads_raise_witness :
  snd (fetch_all_steam_reviews_for_app 1 (Args.default 413150)
         [Ok {| status_code := 200; text := "[]"; json := Ok (PyList []) |}])
    = Raised (Exn AttributeError None) /\
  snd (fetch_all_steam_reviews_for_app 1 (Args.default 413150)
         [Ok {| status_code := 200; text := "";
                json := Ok (PyDict [("success", PyInt 1); ("reviews", PyInt 5)]) |}])
    = Raised (Exn TypeError None).
Proof.
  split.
  - edestruct (malformed_payloads_raise (E := scripted) (Args.default 413150)
                 [Ok {| status_code := 200; text := "[]"; json := Ok (PyList []) |}] 0)
      as (T & _).
    + split; reflexivity.
    + split; reflexivity.
    + reflexivity.
    + exact (f_equal snd (T _ eq_refl ltac:(discriminate) 0%nat)).
  - edestruct (malformed_payloads_raise (E := scripted) (Args.default 413150)
                 [Ok {| status_code := 200; text := "";
                        json := Ok (PyDict [("success", PyInt 1);
                                            ("reviews", PyInt 5)]) |}] 0)
      as (_ & T).
    + split; reflexivity.
    + split; reflexivity.
    + reflexivity.
    + refine (f_equal snd (T [("success", PyInt 1); ("reviews", PyInt 5)] (PyInt 5)
                             _ eq_refl eq_refl _ _ _ 0%nat));
        [repeat split|discriminate..].
Defined.

Lemma negative_cap_cuts_from_the_end_witness :
  exists res,
    fetch_all_steam_reviews_for_app 1
      (Args.with_max_reviews (-1) (Args.default 413150))
      [Ok (page [sample_review; sample_review] "AB==")]
      = (([], [EvGet (request_for (Args.with_max_reviews (-1) (Args.default 413150))
                        (PyStr "*"))]),
         Returned res) /\
    reviews res = [Normalized sample_normalized].
Proof.
  assert (N : [sample_review; sample_review] <> []) by discriminate.
  assert (L : -1 < 0) by lia.
  destruct (negative_cap_cuts_from_the_end (E := scripted)
              (Args.with_max_reviews (-1) (Args.default 413150))
              [Ok (page [sample_review; sample_review] "AB==")] []
              (page [sample_review; sample_review] "AB==")
              _ [sample_review; sample_review]
              [Normalized sample_normalized; Normalized sample_normalized] (-1)
              eq_refl eq_refl (page_payload _ _) eq_refl N eq_refl eq_refl L 0%nat)
    as (res & Hrun & Hr & _).
  exists res. split; [exact Hrun|exact Hr].
Defined.

Lemma main_saves_within_the_cap_witness :
  exists m data,
    main 2 Namespace.defaults
      [Ok (page [sample_review] "AB=="); Ok (page [] "AB==")]
      = ((m, [Saved "steam_reviews_4134990.json" data;
              Printed "Saved 1 reviews to steam_reviews_4134990.json"]),
         Returned tt).
Proof.
  eassert (M : main 2 Namespace.defaults
                 [Ok (page [sample_review] "AB=="); Ok (page [] "AB==")]
               = ((_, _), Returned tt)) by (vm_compute; reflexivity).
  destruct (main_saves_within_the_cap (E := scripted) (H := scripted_host)
              _ _ _ _ _ M) as (data & Ho & _).
  eexists. exists data. rewrite M. f_equal. f_equal.
  injection Ho as Hd. vm_compute. now rewrite <- Hd.
Defined.

Lemma main_saves_nothing_on_failure_witness :
  main 2 {| Namespace.appid := 413150;
            Namespace.language := "english";
            Namespace.review_type := "all";
            Namespace.purchase_type := "all";
            Namespace.filter_mode := "recent";
            Namespace.day_range := 30;
            Namespace.num_per_page := 101;
            Namespace.filter_offtopic_activity := 1;
            Namespace.max_reviews := 1000;
            Namespace.sleep_seconds := S754_zero false;
            Namespace.timeout_seconds := S754_finite false 15 1;
            Namespace.include_raw := false;
            Namespace.no_normalize := false;
            Namespace.out := Some "out.json" |}
    [Ok (page [sample_review] "AB==")]
    = ((([Ok (page [sample_review] "AB==")], []), []),
       Raised (Exn ValueError (Some "num_per_page must be between 1 and 100"))).
Proof.
  apply (proj2 (main_saves_nothing_on_failure (E := scripted) (H := scripted_host)
                  2 _ [Ok (page [sample_review] "AB==")])).
  right. reflexivity.
Defined.

Lemma dataset_records_the_requests_witness :
  exists m res,
    fetch_all_steam_reviews_for_app 2 (Args.default 413150)
      [Ok (page [sample_review] "AB=="); Ok (page [] "AB==")]
      = (m, Returned res) /\
    count res = 1 /\ raw_reviews res = None.
Proof.
  eassert (F : fetch_all_steam_reviews_for_app 2 (Args.default 413150)
                 [Ok (page [sample_review] "AB=="); Ok (page [] "AB==")]
               = (_, Returned _)) by (vm_compute; reflexivity).
  destruct (dataset_records_the_requests _ _ _ _ _ F) as (C & _ & R & _).
  eexists. eexists. split; [exact F|]. split; [exact C|]. apply R. reflexivity.
Defined.

Lemma main_flags_select_the_output_witness :
  exists m data line,
    main 2 Namespace.defaults
      [Ok (page [sample_review] "AB=="); Ok (page [] "AB==")]
      = ((m, [Saved "steam_reviews_4134990.json" data; Printed line]),
         Returned tt) /\
    Forall is_normalized (reviews data) /\ raw_reviews data = None.
Proof.
  eassert (M : main 2 Namespace.defaults
                 [Ok (page [sample_review] "AB=="); Ok (page [] "AB==")]
               = ((_, _), Returned tt)) by (vm_compute; reflexivity).
  destruct (main_flags_select_the_output (E := scripted) (H := scripted_host)
              _ _ _ _ _ M) as (data & line & Ho & K & R).
  eexists. exists data, line. split; [|split; [exact K|exact R]].
  rewrite M. f_equal. f_equal. exact Ho.
Defined.
